(** * passport-negotiate: the Negotiate (RFC 4559) authentication strategy

    A shallow embedding of [lib/passport-negotiate/strategy.js]: the
    [Strategy] constructor and [Strategy.prototype.authenticate], with the
    Kerberos engine, the application's verify callback and the host
    framework's [fail]/[error]/[redirect]/[success] primitives modelled as
    collaborators whose calls are recorded in a trace. *)

From Stdlib Require Import ZArith String Ascii List.
From stdpp Require Import base option list strings gmap pretty.

Local Open Scope Z_scope.
Local Open Scope string_scope.

(** ** JavaScript values *)

Module Js.

(** The values that flow through the strategy.  Numbers are integers plus
    [NaN]; a function carries an identity and the text its [toString]
    yields; an [Error] instance carries its [name] and [message]; a plain
    object is its property list, most recent binding first. *)
#[warnings="-register-all"]
Inductive value : Type :=
| VUndefined
| VNull
| VBool (b : bool)
| VNum (n : Z)
| VNaN
| VStr (s : string)
| VFun (ref : nat) (source : string)
| VErr (name message : string)
| VObj (props : list (string * value)).

(** ToBoolean, as used by [if (x)], [!x] and [x || y]. *)
Definition truthy (v : value) : bool :=
  match v with
  | VUndefined | VNull | VNaN => false
  | VBool b => b
  | VNum n => negb (n =? 0)%Z
  | VStr s => negb (String.eqb s "")
  | VFun _ _ | VErr _ _ | VObj _ => true
  end.

(** [typeof v]. *)
Definition typeof (v : value) : string :=
  match v with
  | VUndefined => "undefined"
  | VNull => "object"
  | VBool _ => "boolean"
  | VNum _ | VNaN => "number"
  | VStr _ => "string"
  | VFun _ _ => "function"
  | VErr _ _ | VObj _ => "object"
  end.

(** ToString, as used by [string + v]. *)
Definition to_string (v : value) : string :=
  match v with
  | VUndefined => "undefined"
  | VNull => "null"
  | VBool true => "true"
  | VBool false => "false"
  | VNum n => pretty n
  | VNaN => "NaN"
  | VStr s => s
  | VFun _ source => source
  | VErr name message =>
      if String.eqb name "" then message
      else if String.eqb message "" then name
      else name +:+ ": " +:+ message
  | VObj _ => "[object Object]"
  end.

(** [a || b]. *)
Definition logical_or (a b : value) : value := if truthy a then a else b.

Fixpoint assoc (k : string) (props : list (string * value)) : option value :=
  match props with
  | [] => None
  | (k', v) :: rest => if String.eqb k k' then Some v else assoc k rest
  end.

(** [o.k] for the property names the strategy reads
    ([passReqToCallback], [servicePrincipalName], [verbose],
    [enableConstrainedDelegation], [noUserRedirect]): [None] is the
    TypeError of reading a property of [undefined] or [null]; no primitive
    or function has one of these properties. *)
Definition get_prop (o : value) (k : string) : option value :=
  match o with
  | VUndefined | VNull => None
  | VObj props => Some (default VUndefined (assoc k props))
  | VErr name message =>
      Some (if String.eqb k "name" then VStr name
            else if String.eqb k "message" then VStr message
            else VUndefined)
  | _ => Some VUndefined
  end.

(** *** Strings *)

(** Does [pat] occur in [s] at offset [k]? *)
Definition occurs_at (pat s : string) (k : nat) : bool :=
  String.eqb (String.substring k (String.length pat) s) pat.

(** Backward search from offset [k] down to 0. *)
Fixpoint search_back (pat s : string) (k : nat) : Z :=
  if occurs_at pat s k then Z.of_nat k
  else match k with
       | O => -1
       | S k' => search_back pat s k'
       end.

(** [s.lastIndexOf(pat, from)] for [from >= 0]: the greatest index not
    above [from] at which [pat] occurs in [s], or -1. *)
Definition lastIndexOf (s pat : string) (from : nat) : Z :=
  if (String.length s <? String.length pat)%nat then -1
  else search_back pat s (Nat.min from (String.length s - String.length pat)).

(** [s.substring(start)]. *)
Definition substring_from (start : nat) (s : string) : string :=
  String.substring start (String.length s - start) s.

(** [s.startsWith(pat)]. *)
Definition startsWith (s pat : string) : bool := String.prefix pat s.

End Js.
Import Js.

(** ** The constructor *)

Inductive Exn : Type :=
| JsError (message : string)
| TypeError.

Inductive Outcome (A : Type) : Type :=
| Returned (a : A)
| Threw (e : Exn).
Arguments Returned {A} a.
Arguments Threw {A} e.

Record Strategy : Type := mkStrategy {
  name : string;
  _verify : value;
  _passReqToCallback : value;
  _servicePrincipalName : value;
  _verbose : value;
  _enableConstrainedDelegation : value
}.

(** [new Strategy(options, verify)]; a missing argument is [VUndefined]. *)
Definition new_Strategy (options verify : value) : Outcome Strategy :=
  let '(options, verify) :=
    if String.eqb (typeof options) "function" then (VObj [], options)
    else (options, verify) in
  if negb (truthy verify) then
    Threw (JsError "negotiate authentication strategy requires a verify function")
  else
    match get_prop options "passReqToCallback",
          get_prop options "servicePrincipalName",
          get_prop options "verbose",
          get_prop options "enableConstrainedDelegation" with
    | Some p, Some s, Some v, Some d =>
        Returned {| name := "negotiate";
                    _verify := verify;
                    _passReqToCallback := p;
                    _servicePrincipalName := s;
                    _verbose := v;
                    _enableConstrainedDelegation := d |}
    | _, _, _, _ => Threw TypeError
    end.

(** ** Requests, collaborators and the trace *)

(** An Express request: its headers (lower-cased names), its session object
    when session support is enabled, and the attributes set on it. *)
Record Request : Type := mkRequest {
  headers : gmap string string;
  session : option (gmap string value);
  attrs : gmap string value
}.

(** [req.get(name)]: [None] is [undefined]. *)
Definition req_get (req : Request) (name : string) : option string :=
  headers req !! name.

(** The state of a server context after [server.step(token, cb)]: the
    arguments the callback receives and the fields read from the handle. *)
Record StepResult : Type := mkStepResult {
  step_err : value;
  serverResponse : value;
  username : value;
  delegatedCredentialsCache : value
}.

Record Server : Type := mkServer {
  step : string -> StepResult
}.

(** [kerberos.initializeServer(spn, cb)] calls [cb(err, server)];
    [server] may be left out when [err] is set. *)
Record Kerberos : Type := mkKerberos {
  initializeServer : value -> value * option Server
}.

(** What the application's verify function is called with. *)
Inductive VerifyArgs : Type :=
| WithReq (req : Request) (principal : value)
| PrincipalOnly (principal : value).

(** The calls [verified(err, user, info)] a verify function makes, in
    order.  The application's contract is exactly one; the strategy does not
    enforce it. *)
Definition DoneCall : Type := value * value * value.

(** The behaviour of the application's functions, by identity. *)
Definition App : Type := nat -> VerifyArgs -> list DoneCall.

(** The terminal actions of passport-strategy. *)
Inductive Action : Type :=
| Fail (challenge : value)
| Error (err : value)
| Redirect (url : value)
| Success (user info : value).

(** [this.fail('Negotiate')]: a 401 with [WWW-Authenticate: Negotiate]. *)
Definition Challenge : Action := Fail (VStr "Negotiate").

(** Modelled from the spec: [./errors/nousererror] is not part of the
    sources at hand; [new NoUserError(principal)] is an error object that
    carries the principal. *)
Definition NoUserError (principal : value) : value :=
  VObj [("principal", principal)].

Inductive Event : Type :=
| ConsoleLog (line : string)
| ConsoleError (line : string)
| InitializeServer (spn : value)
| Step (token : string)
| Verify (args : VerifyArgs)
| Act (a : Action).

(** ** The monad of one authentication attempt

    A computation reads and updates the request, appends to the trace and
    either returns or throws. *)
Definition M (A : Type) : Type := Request -> Outcome A * Request * list Event.

Definition ret {A} (a : A) : M A := fun req => (Returned a, req, []).

Definition bind {A B} (m : M A) (k : A -> M B) : M B :=
  fun req =>
    match m req with
    | (Returned a, req', t) =>
        let '(o, req'', t') := k a req' in (o, req'', (t ++ t')%list)
    | (Threw e, req', t) => (Threw e, req', t)
    end.

#[global] Instance M_ret : MRet M := @ret.
#[global] Instance M_bind : MBind M := fun A B k m => bind m k.

Definition throw {A} (e : Exn) : M A := fun req => (Threw e, req, []).
Definition emit (e : Event) : M unit := fun req => (Returned tt, req, [e]).
Definition get_req : M Request := fun req => (Returned req, req, []).
Definition modify_req (f : Request -> Request) : M unit :=
  fun req => (Returned tt, f req, []).

Definition when (b : bool) (m : M unit) : M unit := if b then m else ret tt.

Fixpoint for_each {A} (l : list A) (f : A -> M unit) : M unit :=
  match l with
  | [] => ret tt
  | a :: rest => f a ;; for_each rest f
  end.

(** [req.session.k = v], under the guard [if (req.session)]. *)
Definition set_session (k : string) (v : value) : M unit :=
  modify_req (fun req =>
    {| headers := headers req;
       session := insert k v <$> session req;
       attrs := attrs req |}).

(** [req.k = v]. *)
Definition set_attr (k : string) (v : value) : M unit :=
  modify_req (fun req =>
    {| headers := headers req;
       session := session req;
       attrs := <[k := v]> (attrs req) |}).

Definition console_log (line : string) : M unit := emit (ConsoleLog line).
Definition console_error (line : string) : M unit := emit (ConsoleError line).

(** ** [Strategy.prototype.authenticate] *)

Section Authenticate.

Variable kerberos : Kerberos.
Variable app : App.
Variable self : Strategy.

Definition self_fail (c : value) : M unit := emit (Act (Fail c)).
Definition self_error (e : value) : M unit := emit (Act (Error e)).
Definition self_redirect (u : value) : M unit := emit (Act (Redirect u)).
Definition self_success (user info : value) : M unit :=
  emit (Act (Success user info)).

(** [self._verify(...)]: calling a value that is not a function throws. *)
Definition call_verify (args : VerifyArgs) : M (list DoneCall) :=
  match _verify self with
  | VFun ref _ => emit (Verify args) ;; ret (app ref args)
  | _ => throw TypeError
  end.

Definition failIfError (err : value) (step : string) : M Z :=
  if truthy err then
    console_error ("authentication failed at operation '" +:+ step
                   +:+ "' with error: " +:+ to_string err) ;;
    self_error err ;;
    ret 1
  else ret 0.

Definition verified (options principal : value) (call : DoneCall) : M unit :=
  let '(err, user, info) := call in
  if truthy err then self_error err
  else if negb (truthy user) then
    match get_prop options "noUserRedirect" with
    | None => throw TypeError
    | Some noUserRedirect =>
        if truthy noUserRedirect then
          when (truthy (_verbose self))
               (console_log ("redirecting to: " +:+ to_string noUserRedirect)) ;;
          self_redirect noUserRedirect
        else
          self_fail (NoUserError principal)
    end
  else self_success user info.

(** The body of the callback given to [server.step]. *)
Definition on_step (options : value) (r : StepResult) : M unit :=
  let err := step_err r in
  failed ← failIfError err "step";
  when (negb (truthy (VNum failed))) (
    let principal := username r in
    req ← get_req;
    when (bool_decide (is_Some (session req)))
         (set_session "authenticatedPrincipal" principal) ;;
    set_attr "authenticatedPrincipal" principal ;;
    when (truthy (_enableConstrainedDelegation self)) (
      req ← get_req;
      when (bool_decide (is_Some (session req)))
           (set_session "delegatedCredentialsCache" (delegatedCredentialsCache r)) ;;
      set_attr "delegatedCredentialsCache" (delegatedCredentialsCache r)) ;;
    failed ← failIfError err "clean";
    when (negb (truthy (VNum failed))) (
      req ← get_req;
      calls ← (if truthy (_passReqToCallback self)
               then call_verify (WithReq req principal)
               else call_verify (PrincipalOnly principal));
      for_each calls (verified options principal))).

(** The body of the callback given to [kerberos.initializeServer]. *)
Definition on_init (options : value) (auth : string)
    (err : value) (server : option Server) : M unit :=
  failed ← failIfError err "init";
  when (negb (truthy (VNum failed))) (
    match server with
    | None => throw TypeError
    | Some server =>
        emit (Step auth) ;;
        on_step options (step server auth)
    end).

Definition authenticate (options : value) : M unit :=
  req ← get_req;
  match req_get req "authorization" with
  | Some auth =>
      if truthy (VStr auth) then
        if negb (lastIndexOf auth "Negotiate " 0 =? 0)%Z then
          when (truthy (_verbose self))
               (console_error ("Malformed authentication token: " +:+ auth)) ;;
          self_error (VStr ("Malformed authentication token: " +:+ auth))
        else
          let auth := substring_from (String.length "Negotiate ") auth in
          if startsWith auth "TlR" then
            when (truthy (_verbose self))
                 (console_error ("Client sent NTLM header: " +:+ auth)) ;;
            self_error (VStr ("Client sent NTLM header: " +:+ auth))
          else
            let servicePrincipalName :=
              logical_or (_servicePrincipalName self) (VStr "HTTP") in
            when (truthy (_verbose self))
                 (console_log ("InitServer " +:+ to_string servicePrincipalName)) ;;
            emit (InitializeServer servicePrincipalName) ;;
            let '(err, server) := initializeServer kerberos servicePrincipalName in
            on_init options auth err server
      else
        when (truthy (_verbose self)) (console_log "No authorization header") ;;
        self_fail (VStr "Negotiate")
  | None =>
      when (truthy (_verbose self)) (console_log "No authorization header") ;;
      self_fail (VStr "Negotiate")
  end.

End Authenticate.

(** ** Observations on a run *)

Definition outcome_of {A} (x : Outcome A * Request * list Event) : Outcome A := x.1.1.
Definition request_of {A} (x : Outcome A * Request * list Event) : Request := x.1.2.
Definition trace_of {A} (x : Outcome A * Request * list Event) : list Event := x.2.

(** The terminal actions of a trace, in order. *)
Fixpoint actions (t : list Event) : list Action :=
  match t with
  | [] => []
  | Act a :: rest => a :: actions rest
  | _ :: rest => actions rest
  end.

(** The calls made to the Kerberos engine ([initializeServer] and [step]). *)
Definition is_engine_call (e : Event) : bool :=
  match e with
  | InitializeServer _ | Step _ => true
  | _ => false
  end.

Definition engine_calls (t : list Event) : list Event :=
  List.filter is_engine_call t.

Definition is_step_call (e : Event) : bool :=
  match e with
  | Step _ => true
  | _ => false
  end.

Definition is_console (e : Event) : bool :=
  match e with
  | ConsoleLog _ | ConsoleError _ => true
  | _ => false
  end.

(** A trace without its console output. *)
Definition strip_console (t : list Event) : list Event :=
  List.filter (fun e => negb (is_console e)) t.

(** What a run shows apart from console output. *)
Definition observe {A} (x : Outcome A * Request * list Event)
  : Outcome A * Request * list Event :=
  (outcome_of x, request_of x, strip_console (trace_of x)).

(** [sub] occurs in [s]. *)
Definition Contains (s sub : string) : Prop :=
  exists pre post, s = pre +:+ sub +:+ post.

(** The same strategy with another [verbose] setting. *)
Definition with_verbose (v : value) (self : Strategy) : Strategy :=
  {| name := name self;
     _verify := _verify self;
     _passReqToCallback := _passReqToCallback self;
     _servicePrincipalName := _servicePrincipalName self;
     _verbose := v;
     _enableConstrainedDelegation := _enableConstrainedDelegation self |}.

(** The header is missing or empty. *)
Definition header_absent (req : Request) : Prop :=
  req_get req "authorization" = None \/ req_get req "authorization" = Some "".

(** The header carries [token] after the scheme prefix, and [token] is not
    taken for NTLM. *)
Definition candidate_token (req : Request) (token : string) : Prop :=
  req_get req "authorization" = Some ("Negotiate " +:+ token)
  /\ startsWith token "TlR" = false.

(** Both engine steps report no error; [r] is the state after the step. *)
Definition negotiation_succeeds (kerberos : Kerberos) (self : Strategy)
    (req : Request) (r : StepResult) : Prop :=
  exists token ierr server,
    candidate_token req token
    /\ initializeServer kerberos (logical_or (_servicePrincipalName self) (VStr "HTTP"))
       = (ierr, Some server)
    /\ truthy ierr = false
    /\ step server token = r
    /\ truthy (step_err r) = false.

(** The arguments the verify function receives for [principal] once the
    request has become [req]. *)
Definition verify_args (self : Strategy) (req : Request) (principal : value)
  : VerifyArgs :=
  if truthy (_passReqToCallback self) then WithReq req principal
  else PrincipalOnly principal.

(** The verify function of [self] completes once, with [call]. *)
Definition verify_completes (app : App) (self : Strategy) (args : VerifyArgs)
    (call : DoneCall) : Prop :=
  exists ref source, _verify self = VFun ref source /\ app ref args = [call].

(** ** Summaries used by the proofs *)

(** A run with [pre] put before its trace. *)
Definition after {A} (pre : list Event) (x : Outcome A * Request * list Event)
  : Outcome A * Request * list Event :=
  (outcome_of x, request_of x, (pre ++ trace_of x)%list).

(** A line that is written only in verbose mode. *)
Definition verbose_line (self : Strategy) (e : Event) : list Event :=
  if truthy (_verbose self) then [e] else [].

(** The request once the principal (and, with constrained delegation, the
    credentials cache) of [r] has been recorded on it. *)
Definition bound_request (self : Strategy) (r : StepResult) (req : Request)
  : Request :=
  let delegate (m : gmap string value) : gmap string value :=
    if truthy (_enableConstrainedDelegation self)
    then <["delegatedCredentialsCache" := delegatedCredentialsCache r]> m
    else m in
  {| headers := headers req;
     session := (fun s => delegate (<["authenticatedPrincipal" := username r]> s))
                <$> session req;
     attrs := delegate (<["authenticatedPrincipal" := username r]> (attrs req)) |}.

(** The hand-over to the application: the verify function is called and
    each of its completions is routed. *)
Definition verify_stage (app : App) (self : Strategy) (options principal : value)
  : M unit :=
  req ← get_req;
  calls ← call_verify app self (verify_args self req principal);
  for_each calls (verified self options principal).

(** The line [failIfError] writes for [err] at [step]. *)
Definition failure_line (step : string) (err : value) : string :=
  "authentication failed at operation '" +:+ step
  +:+ "' with error: " +:+ to_string err.

(** What is written before the application is involved. *)
Definition negotiation_prefix (self : Strategy) (token : string) : list Event :=
  let spn := logical_or (_servicePrincipalName self) (VStr "HTTP") in
  (verbose_line self (ConsoleLog ("InitServer " +:+ to_string spn))
   ++ [InitializeServer spn; Step token])%list.

Definition step_calls (t : list Event) : list Event := List.filter is_step_call t.

(** The engine reports the truthy error [cause] at [stage]: at
    [initializeServer] (["init"]), or, once that has succeeded, at
    [server.step] (["step"]). *)
Definition negotiation_fails (kerberos : Kerberos) (self : Strategy)
    (req : Request) (stage : string) (cause : value) : Prop :=
  exists token,
    candidate_token req token
    /\ truthy cause = true
    /\ let init := initializeServer kerberos
                     (logical_or (_servicePrincipalName self) (VStr "HTTP")) in
       (stage = "init" /\ init.1 = cause)
       \/ (stage = "step" /\ truthy init.1 = false
           /\ exists server, init.2 = Some server
                             /\ step_err (step server token) = cause).

(** ** Sample collaborators *)

(** A server context whose step reports [serr] and yields the principal
    [alice@EXAMPLE.ORG] with the cache [krb5cc_tmp123]. *)
Definition sample_server (serr : value) : Server :=
  {| step := fun _ =>
       {| step_err := serr;
          serverResponse := VStr "";
          username := VStr "alice@EXAMPLE.ORG";
          delegatedCredentialsCache := VStr "krb5cc_tmp123" |} |}.

Definition sample_kerberos (ierr serr : value) : Kerberos :=
  {| initializeServer := fun _ => (ierr, Some (sample_server serr)) |}.

(** An application whose verify function completes once, with [call]. *)
Definition sample_app (call : DoneCall) : App := fun _ _ => [call].

Definition sample_strategy (verbose delegation : value) : Strategy :=
  {| name := "negotiate";
     _verify := VFun 0 "function (principal, done) { ... }";
     _passReqToCallback := VUndefined;
     _servicePrincipalName := VUndefined;
     _verbose := verbose;
     _enableConstrainedDelegation := delegation |}.

Definition sample_request (authorization : option string)
    (session : option (gmap string value)) : Request :=
  {| headers := match authorization with
                | Some a => {["authorization" := a]}
                | None => ∅
                end;
     session := session;
     attrs := ∅ |}.

Definition sample_user : DoneCall :=
  (VNull, VObj [("id", VNum 1)], VObj [("role", VStr "x")]).

Definition no_user : DoneCall := (VNull, VBool false, VUndefined).

(** ** Further observations *)

Definition is_verify_call (e : Event) : bool :=
  match e with
  | Verify _ => true
  | _ => false
  end.

(** The calls made to the application's verify function. *)
Definition verify_calls (t : list Event) : list Event :=
  List.filter is_verify_call t.

(** The console output of a trace. *)
Definition console_lines (t : list Event) : list Event :=
  List.filter is_console t.

(** The events the routing of a completion can produce: terminal actions,
    and log lines in verbose mode. *)
Definition routing_event (self : Strategy) (e : Event) : bool :=
  match e with
  | Act _ => true
  | ConsoleLog _ => truthy (_verbose self)
  | _ => false
  end.

(** [a] is the challenge or a hard error. *)
Definition is_rejection (a : Action) : bool :=
  match a with
  | Fail (VStr s) => String.eqb s "Negotiate"
  | Error _ => true
  | _ => false
  end.

(** [initializeServer] reports no error but hands over no server. *)
Definition server_missing (kerberos : Kerberos) (self : Strategy)
    (req : Request) : Prop :=
  exists token ierr,
    candidate_token req token
    /\ initializeServer kerberos
         (logical_or (_servicePrincipalName self) (VStr "HTTP")) = (ierr, None)
    /\ truthy ierr = false.

(** ** Strings *)

Lemma append_nil_r (s : string) : s +:+ "" = s.
Proof.
  induction s as [|c s IH]; [reflexivity |].
  change (String c (s +:+ "") = String c s). now rewrite IH.
Qed.

Lemma append_assoc (a b c : string) : (a +:+ b) +:+ c = a +:+ (b +:+ c).
Proof.
  induction a as [|x a IH]; [reflexivity |].
  change (String x ((a +:+ b) +:+ c) = String x (a +:+ (b +:+ c))).
  now rewrite IH.
Qed.

Lemma substring_0_length (s : string) : String.substring 0 (String.length s) s = s.
Proof. induction s as [|c s IH]; simpl; [reflexivity | now rewrite IH]. Qed.

Lemma prefix_append (p rest : string) : String.prefix p (p +:+ rest) = true.
Proof.
  induction p as [|c p IH]; simpl; [now destruct rest |].
  destruct (Ascii.ascii_dec c c); [exact IH | contradiction].
Qed.

Lemma prefix_split (p s : string) :
  String.prefix p s = true -> exists rest, s = p +:+ rest.
Proof.
  revert s. induction p as [|c p IH]; intros s H.
  - now exists s.
  - destruct s as [|d s]; simpl in H; [discriminate |].
    destruct (Ascii.ascii_dec c d) as [->|]; [| discriminate].
    destruct (IH s H) as [rest ->]. now exists rest.
Qed.

Lemma prefix_length (p s : string) :
  String.prefix p s = true -> (String.length p <= String.length s)%nat.
Proof.
  revert s. induction p as [|c p IH]; intros s H; [simpl; lia |].
  destruct s as [|d s]; simpl in H; [discriminate |].
  destruct (Ascii.ascii_dec c d); [| discriminate].
  specialize (IH s H). simpl. lia.
Qed.

Lemma occurs_at_0 (pat s : string) : occurs_at pat s 0 = String.prefix pat s.
Proof.
  unfold occurs_at. destruct (String.prefix pat s) eqn:E.
  - apply String.eqb_eq, prefix_correct, E.
  - apply String.eqb_neq. intros H. apply prefix_correct in H. congruence.
Qed.

(** [s.lastIndexOf(pat, 0) === 0] exactly when [s] starts with [pat]. *)
Lemma lastIndexOf_0 (s pat : string) :
  (lastIndexOf s pat 0 =? 0)%Z = String.prefix pat s.
Proof.
  unfold lastIndexOf. destruct (Nat.ltb_spec (String.length s) (String.length pat)) as [Hlt|Hge].
  - destruct (String.prefix pat s) eqn:E; [| reflexivity].
    apply prefix_length in E. lia.
  - simpl. rewrite occurs_at_0. now destruct (String.prefix pat s).
Qed.

Lemma substring_from_append (p rest : string) :
  substring_from (String.length p) (p +:+ rest) = rest.
Proof.
  unfold substring_from. induction p as [|c p IH]; simpl.
  - rewrite Nat.sub_0_r. apply substring_0_length.
  - exact IH.
Qed.

(** ** Running the monad *)

Lemma after_nil {A} (x : Outcome A * Request * list Event) : after [] x = x.
Proof. now destruct x as [[o r] t]. Qed.

Lemma after_after {A} (p q : list Event) (x : Outcome A * Request * list Event) :
  after p (after q x) = after (p ++ q)%list x.
Proof. unfold after; simpl. now rewrite app_assoc. Qed.

Lemma run_bind_returned {A B} (m : M A) (k : A -> M B) req a req' t :
  m req = (Returned a, req', t) -> (m ≫= k) req = after t (k a req').
Proof.
  intros H. unfold mbind, M_bind, bind. rewrite H.
  now destruct (k a req') as [[o r] t'].
Qed.

Lemma run_bind_threw {A B} (m : M A) (k : A -> M B) req e req' t :
  m req = (Threw e, req', t) -> (m ≫= k) req = (Threw e, req', t).
Proof. intros H. unfold mbind, M_bind, bind. now rewrite H. Qed.

Lemma when_true (m : M unit) : when true m = m.
Proof. reflexivity. Qed.

Lemma run_when_emit (b : bool) (e : Event) req :
  when b (emit e) req = (Returned tt, req, if b then [e] else []).
Proof. now destruct b. Qed.

Lemma actions_app (t u : list Event) : actions (t ++ u) = (actions t ++ actions u)%list.
Proof.
  induction t as [|e t IH]; simpl; [reflexivity |].
  destruct e; simpl; now rewrite ?IH.
Qed.

Lemma engine_calls_app (t u : list Event) :
  engine_calls (t ++ u) = (engine_calls t ++ engine_calls u)%list.
Proof. unfold engine_calls. apply List.filter_app. Qed.

Lemma strip_console_app (t u : list Event) :
  strip_console (t ++ u) = (strip_console t ++ strip_console u)%list.
Proof. unfold strip_console. apply List.filter_app. Qed.

(** ** The phases of [authenticate] *)

Section Phases.

Variable kerberos : Kerberos.
Variable app : App.
Variable self : Strategy.
Variable options : value.

(** Step 1: no credentials, so challenge. *)
Lemma authenticate_absent req :
  header_absent req ->
  authenticate kerberos app self options req
  = (Returned tt, req,
     (verbose_line self (ConsoleLog "No authorization header")
      ++ [Act Challenge])%list).
Proof.
  intros H. unfold authenticate.
  rewrite (run_bind_returned _ _ req req req []) by reflexivity.
  rewrite after_nil.
  assert (E : forall r : Request,
    (when (truthy (_verbose self)) (console_log "No authorization header") ;;
     self_fail (VStr "Negotiate")) r
    = (Returned tt, r,
       (verbose_line self (ConsoleLog "No authorization header") ++ [Act Challenge])%list)).
  { intros r. unfold verbose_line, console_log.
    rewrite (run_bind_returned _ _ r tt r _ (run_when_emit _ _ r)).
    reflexivity. }
  destruct H as [-> | ->]; simpl; apply E.
Qed.

(** Step 2a: a header of another scheme. *)
Lemma authenticate_malformed req auth :
  req_get req "authorization" = Some auth ->
  truthy (VStr auth) = true ->
  String.prefix "Negotiate " auth = false ->
  authenticate kerberos app self options req
  = (Returned tt, req,
     (verbose_line self (ConsoleError ("Malformed authentication token: " +:+ auth))
      ++ [Act (Error (VStr ("Malformed authentication token: " +:+ auth)))])%list).
Proof.
  intros Hh Ht Hp. unfold authenticate.
  rewrite (run_bind_returned _ _ req req req []) by reflexivity.
  rewrite after_nil, Hh, Ht, lastIndexOf_0, Hp. cbv [negb].
  unfold verbose_line, console_error.
  rewrite (run_bind_returned _ _ req tt req _ (run_when_emit _ _ req)).
  reflexivity.
Qed.

(** Step 2b: NTLM inside a Negotiate header. *)
Lemma authenticate_ntlm req token :
  req_get req "authorization" = Some ("Negotiate " +:+ token) ->
  startsWith token "TlR" = true ->
  authenticate kerberos app self options req
  = (Returned tt, req,
     (verbose_line self (ConsoleError ("Client sent NTLM header: " +:+ token))
      ++ [Act (Error (VStr ("Client sent NTLM header: " +:+ token)))])%list).
Proof.
  intros Hh Ht. unfold authenticate.
  rewrite (run_bind_returned _ _ req req req []) by reflexivity.
  rewrite after_nil, Hh, lastIndexOf_0, prefix_append.
  replace (truthy (VStr ("Negotiate " +:+ token))) with true by reflexivity.
  cbv [negb]. rewrite substring_from_append, Ht.
  unfold verbose_line, console_error.
  rewrite (run_bind_returned _ _ req tt req _ (run_when_emit _ _ req)).
  reflexivity.
Qed.

(** Step 3: a candidate token reaches the engine. *)
Lemma authenticate_candidate req token :
  candidate_token req token ->
  let spn := logical_or (_servicePrincipalName self) (VStr "HTTP") in
  authenticate kerberos app self options req
  = after (verbose_line self (ConsoleLog ("InitServer " +:+ to_string spn))
           ++ [InitializeServer spn])%list
      (on_init app self options token
         (initializeServer kerberos spn).1 (initializeServer kerberos spn).2 req).
Proof.
  intros [Hh Ht] spn. unfold authenticate.
  rewrite (run_bind_returned _ _ req req req []) by reflexivity.
  rewrite after_nil, Hh, lastIndexOf_0, prefix_append.
  replace (truthy (VStr ("Negotiate " +:+ token))) with true by reflexivity.
  cbv [negb]. rewrite substring_from_append, Ht.
  fold spn. unfold verbose_line, console_log.
  rewrite (run_bind_returned _ _ req tt req _ (run_when_emit _ _ req)).
  rewrite (run_bind_returned _ _ req tt req [InitializeServer spn]) by reflexivity.
  rewrite after_after. now destruct (initializeServer kerberos spn).
Qed.

End Phases.

(** ** The engine callbacks *)

Section Callbacks.

Variable app : App.
Variable self : Strategy.
Variable options : value.

Lemma failIfError_error err step req :
  truthy err = true ->
  failIfError err step req
  = (Returned 1, req, [ConsoleError (failure_line step err); Act (Error err)]).
Proof. intros H. unfold failIfError. now rewrite H. Qed.

Lemma failIfError_ok err step req :
  truthy err = false -> failIfError err step req = (Returned 0, req, []).
Proof. intros H. unfold failIfError. now rewrite H. Qed.

Lemma on_init_error token err server req :
  truthy err = true ->
  on_init app self options token err server req
  = (Returned tt, req, [ConsoleError (failure_line "init" err); Act (Error err)]).
Proof.
  intros H. unfold on_init.
  rewrite (run_bind_returned _ _ _ _ _ _ (failIfError_error _ _ _ H)).
  reflexivity.
Qed.

Lemma on_init_ok token err server req :
  truthy err = false ->
  on_init app self options token err (Some server) req
  = after [Step token] (on_step app self options (step server token) req).
Proof.
  intros H. unfold on_init.
  rewrite (run_bind_returned _ _ _ _ _ _ (failIfError_ok _ _ _ H)).
  rewrite after_nil. cbv [truthy Z.eqb negb when].
  now rewrite (run_bind_returned _ _ req tt req [Step token]).
Qed.

Lemma on_init_no_server token err req :
  truthy err = false ->
  on_init app self options token err None req = (Threw TypeError, req, []).
Proof.
  intros H. unfold on_init.
  rewrite (run_bind_returned _ _ _ _ _ _ (failIfError_ok _ _ _ H)).
  reflexivity.
Qed.

Lemma on_step_error r req :
  truthy (step_err r) = true ->
  on_step app self options r req
  = (Returned tt, req,
     [ConsoleError (failure_line "step" (step_err r)); Act (Error (step_err r))]).
Proof.
  intros H. unfold on_step.
  rewrite (run_bind_returned _ _ _ _ _ _ (failIfError_error _ _ _ H)).
  reflexivity.
Qed.

(** The attribute writes of the step callback, as one state change. *)
Lemma bind_attributes r req (k : M unit) :
  (req0 ← get_req;
   when (bool_decide (is_Some (session req0)))
        (set_session "authenticatedPrincipal" (username r)) ;;
   set_attr "authenticatedPrincipal" (username r) ;;
   when (truthy (_enableConstrainedDelegation self)) (
     req1 ← get_req;
     when (bool_decide (is_Some (session req1)))
          (set_session "delegatedCredentialsCache" (delegatedCredentialsCache r)) ;;
     set_attr "delegatedCredentialsCache" (delegatedCredentialsCache r)) ;;
   k) req
  = k (bound_request self r req).
Proof.
  unfold bound_request.
  destruct req as [h [s|] a];
    destruct (truthy (_enableConstrainedDelegation self));
    cbv [mbind M_bind bind get_req when set_session set_attr modify_req ret
         session attrs headers bool_decide is_Some_dec decide_rel
         fmap option_fmap option_map List.app];
    now destruct (k _) as [[o q] t].
Qed.

Lemma on_step_ok r req :
  truthy (step_err r) = false ->
  on_step app self options r req
  = verify_stage app self options (username r) (bound_request self r req).
Proof.
  intros H. unfold on_step.
  rewrite (run_bind_returned _ _ _ _ _ _ (failIfError_ok _ _ _ H)).
  rewrite after_nil. change (negb (truthy (VNum 0))) with true.
  rewrite when_true, bind_attributes.
  rewrite (run_bind_returned _ _ _ _ _ _ (failIfError_ok _ _ _ H)).
  rewrite after_nil. change (negb (truthy (VNum 0))) with true.
  rewrite when_true.
  unfold verify_stage, verify_args.
  rewrite !(run_bind_returned _ _ (bound_request self r req) _ _ []
              (eq_refl : get_req _ = _)).
  rewrite !after_nil.
  now destruct (truthy (_passReqToCallback self)).
Qed.

End Callbacks.

(** ** The hand-over to the application *)

Section Routing.

Variable app : App.
Variable self : Strategy.
Variable options : value.
Variable principal : value.

Lemma verified_error err user info req :
  truthy err = true ->
  verified self options principal (err, user, info) req
  = (Returned tt, req, [Act (Error err)]).
Proof. intros H. unfold verified. now rewrite H. Qed.

Lemma verified_success err user info req :
  truthy err = false -> truthy user = true ->
  verified self options principal (err, user, info) req
  = (Returned tt, req, [Act (Success user info)]).
Proof. intros He Hu. unfold verified. now rewrite He, Hu. Qed.

Lemma verified_redirect err user info target req :
  truthy err = false -> truthy user = false ->
  get_prop options "noUserRedirect" = Some target -> truthy target = true ->
  verified self options principal (err, user, info) req
  = (Returned tt, req,
     (verbose_line self (ConsoleLog ("redirecting to: " +:+ to_string target))
      ++ [Act (Redirect target)])%list).
Proof.
  intros He Hu Ho Ht. unfold verified. rewrite He, Hu, Ho, Ht. cbv [negb].
  unfold console_log, verbose_line.
  now rewrite (run_bind_returned _ _ req tt req _ (run_when_emit _ _ req)).
Qed.

Lemma verified_no_user err user info target req :
  truthy err = false -> truthy user = false ->
  get_prop options "noUserRedirect" = Some target -> truthy target = false ->
  verified self options principal (err, user, info) req
  = (Returned tt, req, [Act (Fail (NoUserError principal))]).
Proof. intros He Hu Ho Ht. unfold verified. now rewrite He, Hu, Ho, Ht. Qed.

(** Routing a completion never touches the request. *)
Lemma verified_request call req :
  request_of (verified self options principal call req) = req.
Proof.
  destruct call as [[err user] info]. unfold verified.
  destruct (truthy err); [reflexivity |].
  destruct (truthy user); [reflexivity |]. cbv [negb].
  destruct (get_prop options "noUserRedirect") as [target|]; [| reflexivity].
  destruct (truthy target); [| reflexivity].
  unfold console_log.
  now rewrite (run_bind_returned _ _ req tt req _ (run_when_emit _ _ req)).
Qed.

Lemma for_each_verified_request calls req :
  request_of (for_each calls (verified self options principal) req) = req.
Proof.
  induction calls as [|c calls IH]; [reflexivity |].
  simpl. pose proof (verified_request c req) as Hc.
  destruct (verified self options principal c req) as [[[[]|e] r] t] eqn:E;
    unfold request_of in Hc; simpl in Hc; subst r.
  - rewrite (run_bind_returned _ _ _ _ _ _ E). exact IH.
  - now rewrite (run_bind_threw _ _ _ _ _ _ E).
Qed.

Lemma verify_stage_request req :
  request_of (verify_stage app self options principal req) = req.
Proof.
  unfold verify_stage.
  rewrite (run_bind_returned _ _ req req req []) by reflexivity.
  rewrite after_nil. unfold call_verify.
  destruct (_verify self); try reflexivity.
  rewrite (run_bind_returned _ _ req _ req [Verify (verify_args self req principal)])
    by reflexivity.
  apply for_each_verified_request.
Qed.

(** With a verify function that completes once, the stage is the call
    followed by the routing of that completion. *)
Lemma verify_stage_completes call req :
  verify_completes app self (verify_args self req principal) call ->
  verify_stage app self options principal req
  = after [Verify (verify_args self req principal)]
      (verified self options principal call req).
Proof.
  intros (ref & source & Hv & Hc). unfold verify_stage.
  rewrite (run_bind_returned _ _ req req req []) by reflexivity.
  rewrite after_nil. unfold call_verify. rewrite Hv.
  rewrite (run_bind_returned _ _ req _ req [Verify (verify_args self req principal)])
    by reflexivity.
  rewrite Hc. simpl. f_equal.
  destruct (verified self options principal call req) as [[[[]|e] r] t] eqn:E.
  - rewrite (run_bind_returned _ _ _ _ _ _ E). unfold after. simpl.
    now rewrite app_nil_r.
  - now rewrite (run_bind_threw _ _ _ _ _ _ E).
Qed.

End Routing.

(** ** Negotiation as a whole *)

Lemma actions_negotiation_prefix self token :
  actions (negotiation_prefix self token) = [].
Proof.
  unfold negotiation_prefix, verbose_line.
  now destruct (truthy (_verbose self)).
Qed.

Lemma authenticate_negotiated kerberos app self options req r :
  negotiation_succeeds kerberos self req r ->
  exists token,
    authenticate kerberos app self options req
    = after (negotiation_prefix self token)
        (verify_stage app self options (username r) (bound_request self r req)).
Proof.
  intros (token & ierr & server & Hc & Hi & Hie & Hs & Hse).
  exists token. rewrite (authenticate_candidate _ _ _ _ _ _ Hc).
  rewrite Hi. simpl fst. simpl snd.
  rewrite (on_init_ok _ _ _ _ _ _ _ Hie), Hs, (on_step_ok _ _ _ _ _ Hse).
  rewrite after_after. unfold negotiation_prefix.
  now rewrite <- app_assoc.
Qed.

(** ** Verbosity is observational *)

Lemma observe_bind {A B} (m1 m2 : M A) (k1 k2 : A -> M B) req :
  observe (m1 req) = observe (m2 req) ->
  (forall a r, observe (k1 a r) = observe (k2 a r)) ->
  observe ((m1 ≫= k1) req) = observe ((m2 ≫= k2) req).
Proof.
  intros Hm Hk. unfold mbind, M_bind, bind.
  destruct (m1 req) as [[o1 r1] t1], (m2 req) as [[o2 r2] t2].
  unfold observe, outcome_of, request_of, trace_of in Hm. simpl in Hm.
  injection Hm as -> -> Ht.
  destruct o2 as [a|e].
  - specialize (Hk a r2).
    destruct (k1 a r2) as [[p1 q1] u1], (k2 a r2) as [[p2 q2] u2].
    unfold observe, outcome_of, request_of, trace_of in *. simpl in *.
    injection Hk as -> -> Hu. now rewrite !strip_console_app, Ht, Hu.
  - unfold observe, outcome_of, request_of, trace_of. simpl. now rewrite Ht.
Qed.

Lemma observe_when_console (b1 b2 : bool) (e : Event) req :
  is_console e = true ->
  observe (when b1 (emit e) req) = observe (when b2 (emit e) req).
Proof.
  intros H. rewrite !run_when_emit. unfold observe, strip_console. simpl.
  destruct b1, b2; simpl; now rewrite ?H.
Qed.

Section Verbosity.

Variable kerberos : Kerberos.
Variable app : App.
Variable self : Strategy.
Variable v : value.
Variable options : value.

Lemma verified_verbose principal call req :
  observe (verified (with_verbose v self) options principal call req)
  = observe (verified self options principal call req).
Proof.
  destruct call as [[err user] info]. unfold verified.
  destruct (truthy err); [reflexivity |].
  destruct (truthy user); [reflexivity |]. cbv [negb].
  destruct (get_prop options "noUserRedirect") as [target|]; [| reflexivity].
  destruct (truthy target); [| reflexivity].
  apply observe_bind; [| reflexivity].
  now apply observe_when_console.
Qed.

Lemma for_each_verified_verbose principal calls req :
  observe (for_each calls (verified (with_verbose v self) options principal) req)
  = observe (for_each calls (verified self options principal) req).
Proof.
  revert req. induction calls as [|c calls IH]; intros req; [reflexivity |].
  simpl. apply observe_bind; [apply verified_verbose | intros _ r; apply IH].
Qed.

Lemma on_step_verbose r req :
  observe (on_step app (with_verbose v self) options r req)
  = observe (on_step app self options r req).
Proof.
  unfold on_step, call_verify.
  cbn [with_verbose _verify _passReqToCallback _enableConstrainedDelegation].
  apply observe_bind; [reflexivity |]. intros failed r0.
  destruct (negb (truthy (VNum failed))); [| reflexivity]. rewrite !when_true.
  repeat (apply observe_bind; [reflexivity |]; intros ? ?).
  destruct (negb (truthy (VNum _))); [| reflexivity]. rewrite !when_true.
  repeat (apply observe_bind; [reflexivity |]; intros ? ?).
  apply for_each_verified_verbose.
Qed.

Lemma on_init_verbose token err server req :
  observe (on_init app (with_verbose v self) options token err server req)
  = observe (on_init app self options token err server req).
Proof.
  unfold on_init.
  apply observe_bind; [reflexivity |]. intros failed r0.
  destruct (negb (truthy (VNum failed))); [| reflexivity]. rewrite !when_true.
  destruct server as [server|]; [| reflexivity].
  apply observe_bind; [reflexivity |]. intros _ r1. apply on_step_verbose.
Qed.

Lemma authenticate_verbose req :
  observe (authenticate kerberos app (with_verbose v self) options req)
  = observe (authenticate kerberos app self options req).
Proof.
  unfold authenticate.
  cbn [with_verbose _verbose _servicePrincipalName].
  apply observe_bind; [reflexivity |]. intros req0 r0.
  assert (Habsent :
    observe ((when (truthy v) (console_log "No authorization header") ;;
              self_fail (VStr "Negotiate")) r0)
    = observe ((when (truthy (_verbose self)) (console_log "No authorization header") ;;
                self_fail (VStr "Negotiate")) r0)).
  { apply observe_bind; [| reflexivity]. now apply observe_when_console. }
  destruct (req_get req0 "authorization") as [auth|]; [| exact Habsent].
  destruct (truthy (VStr auth)); [| exact Habsent].
  destruct (negb _).
  { apply observe_bind; [| reflexivity]. now apply observe_when_console. }
  destruct (startsWith _ _).
  { apply observe_bind; [| reflexivity]. now apply observe_when_console. }
  apply observe_bind; [now apply observe_when_console |]. intros _ r1.
  apply observe_bind; [reflexivity |]. intros _ r2.
  destruct (initializeServer kerberos _) as [err server].
  apply on_init_verbose.
Qed.

End Verbosity.

(** ** Negotiation failures *)

Lemma failure_line_contains stage cause :
  Contains (failure_line stage cause) stage
  /\ Contains (failure_line stage cause) (to_string cause).
Proof.
  unfold failure_line, Contains. split.
  - exists "authentication failed at operation '",
      ("' with error: " +:+ to_string cause). reflexivity.
  - exists ("authentication failed at operation '" +:+ stage +:+ "' with error: "), "".
    now rewrite append_nil_r, !append_assoc.
Qed.

(** A failed negotiation: the whole run. *)
Lemma authenticate_negotiation_fails kerberos app self options req stage cause :
  negotiation_fails kerberos self req stage cause ->
  exists pre,
    authenticate kerberos app self options req
    = (Returned tt, req,
       (pre ++ [ConsoleError (failure_line stage cause); Act (Error cause)])%list)
    /\ actions pre = []
    /\ (stage = "init" -> step_calls pre = []).
Proof.
  intros (token & Hc & Ht & H).
  rewrite (authenticate_candidate _ _ _ _ _ _ Hc).
  set (spn := logical_or (_servicePrincipalName self) (VStr "HTTP")) in *.
  destruct (initializeServer kerberos spn) as [ierr server]. simpl in H.
  destruct H as [[-> ->] | (-> & Hi & srv & -> & Hs)].
  - rewrite (on_init_error _ _ _ _ _ _ _ Ht).
    eexists. split; [reflexivity |].
    unfold verbose_line. destruct (truthy (_verbose self)); now split.
  - simpl fst. simpl snd. rewrite (on_init_ok _ _ _ _ _ _ _ Hi).
    rewrite on_step_error by now rewrite Hs.
    rewrite Hs, after_after. unfold after. simpl.
    eexists. split; [reflexivity |].
    unfold verbose_line. destruct (truthy (_verbose self)); now split.
Qed.

(** ** Successful negotiation *)

Lemma negotiated_request kerberos app self options req r :
  negotiation_succeeds kerberos self req r ->
  request_of (authenticate kerberos app self options req)
  = bound_request self r req.
Proof.
  intros H.
  destruct (authenticate_negotiated kerberos app self options req r H) as [token ->].
  unfold after, request_of at 1. simpl. apply verify_stage_request.
Qed.

Lemma negotiated_actions kerberos app self options req r call :
  negotiation_succeeds kerberos self req r ->
  verify_completes app self
    (verify_args self (request_of (authenticate kerberos app self options req))
       (username r)) call ->
  actions (trace_of (authenticate kerberos app self options req))
  = actions (trace_of (verified self options (username r) call
                         (bound_request self r req))).
Proof.
  intros H Hv. rewrite (negotiated_request _ _ _ _ _ _ H) in Hv.
  destruct (authenticate_negotiated kerberos app self options req r H) as [token ->].
  rewrite (verify_stage_completes _ _ _ _ _ _ Hv), after_after.
  unfold after, trace_of at 1. simpl.
  rewrite !actions_app, actions_negotiation_prefix. reflexivity.
Qed.

Lemma verified_returns self options principal target call req :
  get_prop options "noUserRedirect" = Some target ->
  outcome_of (verified self options principal call req) = Returned tt.
Proof.
  intros Ho. destruct call as [[err user] info]. unfold verified. rewrite Ho.
  destruct (truthy err); [reflexivity |].
  destruct (truthy user); [reflexivity |]. cbv [negb].
  destruct (truthy target); [| reflexivity].
  unfold console_log.
  now rewrite (run_bind_returned _ _ req tt req _ (run_when_emit _ _ req)).
Qed.

Lemma for_each_verified_returns self options principal target calls req :
  get_prop options "noUserRedirect" = Some target ->
  outcome_of (for_each calls (verified self options principal) req) = Returned tt.
Proof.
  intros Ho. revert req. induction calls as [|c calls IH]; intros req; [reflexivity |].
  simpl. pose proof (verified_returns self options principal target c req Ho) as Hc.
  destruct (verified self options principal c req) as [[o r] t] eqn:E.
  unfold outcome_of in Hc. simpl in Hc. subst o.
  rewrite (run_bind_returned _ _ _ _ _ _ E). apply IH.
Qed.

Lemma verify_stage_returns app self options principal target ref source req :
  _verify self = VFun ref source ->
  get_prop options "noUserRedirect" = Some target ->
  outcome_of (verify_stage app self options principal req) = Returned tt.
Proof.
  intros Hv Ho. unfold verify_stage.
  rewrite (run_bind_returned _ _ req req req []) by reflexivity.
  rewrite after_nil. unfold call_verify. rewrite Hv.
  rewrite (run_bind_returned _ _ req _ req [Verify (verify_args self req principal)])
    by reflexivity.
  apply (for_each_verified_returns _ _ _ target), Ho.
Qed.

(** * The claims *)

(** C1. A request whose authorization header is missing or empty is
    answered with the [Negotiate] challenge and nothing else: the run
    returns, its only terminal action is [fail('Negotiate')], the Kerberos
    engine is not called and the request is left as it was. *)
Theorem absent_header_challenges kerberos app self options req :
  header_absent req ->
  let run := authenticate kerberos app self options req in
  outcome_of run = Returned tt
  /\ actions (trace_of run) = [Challenge]
  /\ engine_calls (trace_of run) = []
  /\ request_of run = req.
Proof.
  intros H run. subst run. rewrite (authenticate_absent _ _ _ _ _ H).
  unfold verbose_line. now destruct (truthy (_verbose self)).
Qed.

Lemma absent_header_challenges_witness :
  header_absent (sample_request None None)
  /\ actions (trace_of (authenticate (sample_kerberos VNull VNull)
                          (sample_app sample_user)
                          (sample_strategy (VBool true) VUndefined)
                          (VObj []) (sample_request None None)))
     = [Challenge].
Proof.
  split; [left; reflexivity |].
  apply (absent_header_challenges (sample_kerberos VNull VNull)
           (sample_app sample_user) (sample_strategy (VBool true) VUndefined)
           (VObj []) (sample_request None None)).
  left; reflexivity.
Defined.

(** C2. A present (non-empty) authorization header that does not start with
    ["Negotiate "], or whose token after that prefix starts with ["TlR"],
    ends in a single [error] whose message is a string containing the
    original header (malformed case) or the word NTLM and the token (NTLM
    case); the Kerberos engine is not called. *)
Theorem rejected_header_errors kerberos app self options req auth :
  req_get req "authorization" = Some auth ->
  auth <> "" ->
  (String.prefix "Negotiate " auth = false
   \/ exists token, auth = "Negotiate " +:+ token /\ String.prefix "TlR" token = true) ->
  let run := authenticate kerberos app self options req in
  exists msg,
    actions (trace_of run) = [Error (VStr msg)]
    /\ engine_calls (trace_of run) = []
    /\ (String.prefix "Negotiate " auth = false -> Contains msg auth)
    /\ (forall token, auth = "Negotiate " +:+ token ->
        Contains msg "NTLM" /\ Contains msg token).
Proof.
  intros Hh Hne Hcase run. subst run.
  assert (Ht : truthy (VStr auth) = true).
  { simpl. apply negb_true_iff, String.eqb_neq, Hne. }
  destruct Hcase as [Hp | (token & -> & Hp)].
  - rewrite (authenticate_malformed _ _ _ _ _ _ Hh Ht Hp).
    exists ("Malformed authentication token: " +:+ auth).
    unfold verbose_line. split; [| split; [| split]].
    + now destruct (truthy (_verbose self)).
    + now destruct (truthy (_verbose self)).
    + intros _. exists "Malformed authentication token: ", "".
      now rewrite append_nil_r.
    + intros token ->. now rewrite prefix_append in Hp.
  - rewrite (authenticate_ntlm _ _ _ _ _ _ Hh Hp).
    exists ("Client sent NTLM header: " +:+ token).
    unfold verbose_line. split; [| split; [| split]].
    + now destruct (truthy (_verbose self)).
    + now destruct (truthy (_verbose self)).
    + intros Hf. now rewrite prefix_append in Hf.
    + intros token' H.
      apply (f_equal (substring_from (String.length "Negotiate "))) in H.
      rewrite !substring_from_append in H. subst token'. split.
      * exists "Client sent ", (" header: " +:+ token). reflexivity.
      * exists "Client sent NTLM header: ", "". now rewrite append_nil_r.
Qed.

Lemma rejected_header_errors_witness :
  let req := sample_request (Some "Negotiate TlRMTVNTUAABAAAA") None in
  let run := authenticate (sample_kerberos VNull VNull) (sample_app sample_user)
               (sample_strategy VUndefined VUndefined) (VObj []) req in
  exists msg,
    actions (trace_of run) = [Error (VStr msg)]
    /\ engine_calls (trace_of run) = []
    /\ (String.prefix "Negotiate " "Negotiate TlRMTVNTUAABAAAA" = false ->
        Contains msg "Negotiate TlRMTVNTUAABAAAA")
    /\ (forall token, "Negotiate TlRMTVNTUAABAAAA" = "Negotiate " +:+ token ->
        Contains msg "NTLM" /\ Contains msg token).
Proof.
  intros req run.
  apply (rejected_header_errors (sample_kerberos VNull VNull)
           (sample_app sample_user) (sample_strategy VUndefined VUndefined)
           (VObj []) req "Negotiate TlRMTVNTUAABAAAA").
  - reflexivity.
  - discriminate.
  - right. exists "TlRMTVNTUAABAAAA". split; reflexivity.
Defined.

(** C3 as stated fails: when [initializeServer] reports an [Error] object,
    the [error] action carries that object itself; neither is it a string
    naming the step, nor does its text mention the step. *)
Lemma negotiation_error_payload_counterexample :
  let cause := VErr "Error" "No key table entry found" in
  let run := authenticate (sample_kerberos cause VNull) (sample_app sample_user)
               (sample_strategy VUndefined VUndefined) (VObj [])
               (sample_request (Some "Negotiate YIIZ") None) in
  negotiation_fails (sample_kerberos cause VNull)
    (sample_strategy VUndefined VUndefined)
    (sample_request (Some "Negotiate YIIZ") None) "init" cause
  /\ actions (trace_of run) = [Error cause]
  /\ ~ Contains (to_string cause) "init"
  /\ ~ (exists msg, actions (trace_of run) = [Error (VStr msg)]
                    /\ Contains msg "init").
Proof.
  intros cause run. split; [| split; [| split]].
  - exists "YIIZ". split; [split; reflexivity |].
    split; [reflexivity |]. left. split; reflexivity.
  - reflexivity.
  - intros (pre & post & H). vm_compute in H.
    repeat (destruct pre as [|? pre];
            [discriminate | try discriminate; injection H as _ H]).
  - intros (msg & H & _). discriminate H.
Qed.

(** C3, amended. When the engine reports a failure at [initializeServer]
    or at [server.step], the only terminal action is [error] with the
    engine's error value, unchanged; the step's name (['init'] or ['step'])
    is written, together with the error, in one line on the error console:
    [authentication failed at operation '<step>' with error: <err>]. *)
Theorem negotiation_failure_reported kerberos app self options req stage cause :
  negotiation_fails kerberos self req stage cause ->
  let run := authenticate kerberos app self options req in
  actions (trace_of run) = [Error cause]
  /\ In (ConsoleError (failure_line stage cause)) (trace_of run)
  /\ (stage = "init" \/ stage = "step")
  /\ Contains (failure_line stage cause) stage
  /\ Contains (failure_line stage cause) (to_string cause).
Proof.
  intros H run. subst run.
  destruct (authenticate_negotiation_fails kerberos app self options req stage cause H)
    as (pre & -> & Ha & _).
  unfold trace_of. simpl. split; [| split; [| split]].
  - now rewrite actions_app, Ha.
  - apply in_or_app. right. now left.
  - destruct H as (token & _ & _ & [[-> _] | [-> _]]); auto.
  - apply failure_line_contains.
Qed.

Lemma negotiation_failure_reported_witness :
  let cause := VErr "Error" "No key table entry found" in
  let run := authenticate (sample_kerberos VNull cause) (sample_app sample_user)
               (sample_strategy VUndefined VUndefined) (VObj [])
               (sample_request (Some "Negotiate YIIZ") None) in
  actions (trace_of run) = [Error cause]
  /\ In (ConsoleError (failure_line "step" cause)) (trace_of run)
  /\ ("step" = "init" \/ "step" = "step")
  /\ Contains (failure_line "step" cause) "step"
  /\ Contains (failure_line "step" cause) (to_string cause).
Proof.
  intros cause run.
  apply (negotiation_failure_reported (sample_kerberos VNull cause)
           (sample_app sample_user) (sample_strategy VUndefined VUndefined)
           (VObj []) (sample_request (Some "Negotiate YIIZ") None) "step" cause).
  exists "YIIZ". split; [split; reflexivity |].
  split; [reflexivity |]. right. split; [reflexivity |].
  split; [reflexivity |]. exists (sample_server cause). split; reflexivity.
Defined.

(** C4. A failed negotiation leaves the request and its session exactly as
    they were; when the failure is at credential initialization,
    [server.step] is never called. *)
Theorem negotiation_failure_writes_nothing kerberos app self options req stage cause :
  negotiation_fails kerberos self req stage cause ->
  let run := authenticate kerberos app self options req in
  request_of run = req
  /\ (stage = "init" -> step_calls (trace_of run) = []).
Proof.
  intros H run. subst run.
  destruct (authenticate_negotiation_fails kerberos app self options req stage cause H)
    as (pre & -> & _ & Hs).
  split; [reflexivity |].
  intros Hi. unfold trace_of, step_calls in *. simpl.
  rewrite List.filter_app, (Hs Hi). reflexivity.
Qed.

Lemma negotiation_failure_writes_nothing_witness :
  let cause := VErr "Error" "No key table entry found" in
  let req := sample_request (Some "Negotiate YIIZ") (Some ∅) in
  let run := authenticate (sample_kerberos cause VNull) (sample_app sample_user)
               (sample_strategy (VBool true) (VBool true)) (VObj []) req in
  request_of run = req
  /\ ("init" = "init" -> step_calls (trace_of run) = []).
Proof.
  intros cause req run.
  apply (negotiation_failure_writes_nothing (sample_kerberos cause VNull)
           (sample_app sample_user) (sample_strategy (VBool true) (VBool true))
           (VObj []) req "init" cause).
  exists "YIIZ". split; [split; reflexivity |].
  split; [reflexivity |]. left. split; reflexivity.
Defined.

(** C5. After a successful negotiation, when the verify callback completes
    with no error and no user: the terminal action is a redirect to
    [options.noUserRedirect] if that is set, and otherwise [fail] with a
    [NoUserError] that carries the authenticated principal. *)
Theorem no_user_redirects_or_fails kerberos app self options req r err user info target :
  let run := authenticate kerberos app self options req in
  negotiation_succeeds kerberos self req r ->
  verify_completes app self (verify_args self (request_of run) (username r))
    (err, user, info) ->
  truthy err = false ->
  truthy user = false ->
  get_prop options "noUserRedirect" = Some target ->
  actions (trace_of run)
  = [if truthy target then Redirect target else Fail (NoUserError (username r))]
  /\ get_prop (NoUserError (username r)) "principal" = Some (username r).
Proof.
  intros run H Hv He Hu Ho. subst run. split; [| reflexivity].
  rewrite (negotiated_actions _ _ _ _ _ _ _ H Hv).
  destruct (truthy target) eqn:Ht.
  - rewrite (verified_redirect _ _ _ _ _ _ _ _ He Hu Ho Ht).
    unfold trace_of, verbose_line. simpl.
    now destruct (truthy (_verbose self)).
  - now rewrite (verified_no_user _ _ _ _ _ _ _ _ He Hu Ho Ht).
Qed.

Lemma no_user_redirects_or_fails_witness :
  let options := VObj [("noUserRedirect", VStr "/needs-account")] in
  let run := authenticate (sample_kerberos VNull VNull) (sample_app no_user)
               (sample_strategy (VBool true) VUndefined) options
               (sample_request (Some "Negotiate YIIZ") None) in
  actions (trace_of run) = [Redirect (VStr "/needs-account")]
  /\ get_prop (NoUserError (VStr "alice@EXAMPLE.ORG")) "principal"
     = Some (VStr "alice@EXAMPLE.ORG").
Proof.
  intros options run.
  apply (no_user_redirects_or_fails (sample_kerberos VNull VNull)
           (sample_app no_user) (sample_strategy (VBool true) VUndefined) options
           (sample_request (Some "Negotiate YIIZ") None)
           (step (sample_server VNull) "YIIZ")
           VNull (VBool false) VUndefined (VStr "/needs-account")).
  - exists "YIIZ", VNull, (sample_server VNull).
    split; [split; reflexivity |]. repeat split; reflexivity.
  - exists 0%nat, "function (principal, done) { ... }". split; reflexivity.
  - reflexivity.
  - reflexivity.
  - reflexivity.
Defined.

(** C6. After a successful negotiation, when the verify callback completes
    with a user and optional info, the terminal action is [success] with
    exactly that user and info, and the request's [authenticatedPrincipal]
    is the principal the engine returned. *)
Theorem user_succeeds kerberos app self options req r err user info :
  let run := authenticate kerberos app self options req in
  negotiation_succeeds kerberos self req r ->
  verify_completes app self (verify_args self (request_of run) (username r))
    (err, user, info) ->
  truthy err = false ->
  truthy user = true ->
  actions (trace_of run) = [Success user info]
  /\ attrs (request_of run) !! "authenticatedPrincipal" = Some (username r).
Proof.
  intros run H Hv He Hu. subst run. split.
  - rewrite (negotiated_actions _ _ _ _ _ _ _ H Hv).
    now rewrite (verified_success _ _ _ _ _ _ _ He Hu).
  - rewrite (negotiated_request _ _ _ _ _ _ H). unfold bound_request. simpl.
    destruct (truthy (_enableConstrainedDelegation self)).
    + rewrite lookup_insert_ne by discriminate. apply lookup_insert_eq.
    + apply lookup_insert_eq.
Qed.

Lemma user_succeeds_witness :
  let run := authenticate (sample_kerberos VNull VNull) (sample_app sample_user)
               (sample_strategy VUndefined VUndefined) (VObj [])
               (sample_request (Some "Negotiate YIIZ") None) in
  actions (trace_of run)
  = [Success (VObj [("id", VNum 1)]) (VObj [("role", VStr "x")])]
  /\ attrs (request_of run) !! "authenticatedPrincipal"
     = Some (VStr "alice@EXAMPLE.ORG").
Proof.
  intros run.
  apply (user_succeeds (sample_kerberos VNull VNull) (sample_app sample_user)
           (sample_strategy VUndefined VUndefined) (VObj [])
           (sample_request (Some "Negotiate YIIZ") None)
           (step (sample_server VNull) "YIIZ")
           VNull (VObj [("id", VNum 1)]) (VObj [("role", VStr "x")])).
  - exists "YIIZ", VNull, (sample_server VNull).
    split; [split; reflexivity |]. repeat split; reflexivity.
  - exists 0%nat, "function (principal, done) { ... }". split; reflexivity.
  - reflexivity.
  - reflexivity.
Defined.

(** C7. After a successful negotiation, the session is written exactly when
    the request has one: without a session none appears, the request's own
    attributes are still set, and the run does not throw (given a verify
    function and an options object); with a session, the principal (and,
    with constrained delegation, the credentials cache) is mirrored into
    it. *)
Theorem session_written_iff_present kerberos app self options req r :
  let run := authenticate kerberos app self options req in
  negotiation_succeeds kerberos self req r ->
  (session req = None ->
     session (request_of run) = None
     /\ attrs (request_of run) !! "authenticatedPrincipal" = Some (username r)
     /\ (truthy (_enableConstrainedDelegation self) = true ->
         attrs (request_of run) !! "delegatedCredentialsCache"
         = Some (delegatedCredentialsCache r))
     /\ (typeof (_verify self) = "function" ->
         is_Some (get_prop options "noUserRedirect") ->
         outcome_of run = Returned tt))
  /\ (forall s, session req = Some s ->
        exists s', session (request_of run) = Some s'
          /\ s' !! "authenticatedPrincipal" = Some (username r)
          /\ (truthy (_enableConstrainedDelegation self) = true ->
              s' !! "delegatedCredentialsCache" = Some (delegatedCredentialsCache r))).
Proof.
  intros run H. subst run. rewrite (negotiated_request _ _ _ _ _ _ H).
  split.
  - intros Hs. unfold bound_request. simpl. rewrite Hs.
    split; [reflexivity |]. split; [| split].
    + destruct (truthy (_enableConstrainedDelegation self)).
      * rewrite lookup_insert_ne by discriminate. apply lookup_insert_eq.
      * apply lookup_insert_eq.
    + intros ->. apply lookup_insert_eq.
    + intros Hf [target Ho].
      destruct (authenticate_negotiated kerberos app self options req r H) as [token ->].
      unfold after, outcome_of at 1. simpl.
      destruct (_verify self) as [| | | | | |ref source| |] eqn:Hv; try discriminate.
      apply (verify_stage_returns _ _ _ _ target ref source); assumption.
  - intros s Hs. unfold bound_request. simpl. rewrite Hs. simpl.
    eexists. split; [reflexivity |]. split.
    + destruct (truthy (_enableConstrainedDelegation self)).
      * rewrite lookup_insert_ne by discriminate. apply lookup_insert_eq.
      * apply lookup_insert_eq.
    + intros ->. apply lookup_insert_eq.
Qed.

Lemma session_written_iff_present_witness :
  let req := sample_request (Some "Negotiate YIIZ") None in
  let run := authenticate (sample_kerberos VNull VNull) (sample_app sample_user)
               (sample_strategy VUndefined VUndefined) (VObj []) req in
  negotiation_succeeds (sample_kerberos VNull VNull)
    (sample_strategy VUndefined VUndefined) req (step (sample_server VNull) "YIIZ")
  /\ session (request_of run) = None
  /\ attrs (request_of run) !! "authenticatedPrincipal"
     = Some (VStr "alice@EXAMPLE.ORG")
  /\ outcome_of run = Returned tt.
Proof.
  intros req run.
  assert (H : negotiation_succeeds (sample_kerberos VNull VNull)
                (sample_strategy VUndefined VUndefined) req
                (step (sample_server VNull) "YIIZ")).
  { exists "YIIZ", VNull, (sample_server VNull).
    split; [split; reflexivity |]. repeat split; reflexivity. }
  split; [exact H |].
  destruct (session_written_iff_present (sample_kerberos VNull VNull)
              (sample_app sample_user) (sample_strategy VUndefined VUndefined)
              (VObj []) req (step (sample_server VNull) "YIIZ") H)
    as [Hnone _].
  destruct (Hnone eq_refl) as (Hs & Ha & _ & Ho).
  split; [exact Hs |]. split; [exact Ha |].
  apply Ho; [reflexivity | eexists; reflexivity].
Defined.

(** C8. After a successful negotiation: with constrained delegation enabled,
    the request's [delegatedCredentialsCache] and, when there is a session,
    the session's, are the cache the engine produced; with it disabled,
    neither is touched, whatever the engine produced. *)
Theorem delegation_cache_binding kerberos app self options req r :
  let run := authenticate kerberos app self options req in
  negotiation_succeeds kerberos self req r ->
  (truthy (_enableConstrainedDelegation self) = true ->
     attrs (request_of run) !! "delegatedCredentialsCache"
     = Some (delegatedCredentialsCache r)
     /\ forall s, session req = Some s ->
          exists s', session (request_of run) = Some s'
            /\ s' !! "delegatedCredentialsCache" = Some (delegatedCredentialsCache r))
  /\ (truthy (_enableConstrainedDelegation self) = false ->
        attrs (request_of run) !! "delegatedCredentialsCache"
        = attrs req !! "delegatedCredentialsCache"
        /\ (session req = None -> session (request_of run) = None)
        /\ forall s, session req = Some s ->
             exists s', session (request_of run) = Some s'
               /\ s' !! "delegatedCredentialsCache" = s !! "delegatedCredentialsCache").
Proof.
  intros run H. subst run. rewrite (negotiated_request _ _ _ _ _ _ H).
  unfold bound_request. simpl. split; intros ->.
  - split; [apply lookup_insert_eq |].
    intros s ->. simpl. eexists. split; [reflexivity | apply lookup_insert_eq].
  - split; [now rewrite lookup_insert_ne by discriminate |].
    split; [now intros -> |].
    intros s ->. simpl. eexists. split; [reflexivity |].
    now rewrite lookup_insert_ne by discriminate.
Qed.

Lemma delegation_cache_binding_witness :
  let req := sample_request (Some "Negotiate YIIZ") (Some ∅) in
  let enabled := authenticate (sample_kerberos VNull VNull) (sample_app sample_user)
                   (sample_strategy VUndefined (VBool true)) (VObj []) req in
  attrs (request_of enabled) !! "delegatedCredentialsCache"
  = Some (VStr "krb5cc_tmp123")
  /\ exists s', session (request_of enabled) = Some s'
       /\ s' !! "delegatedCredentialsCache" = Some (VStr "krb5cc_tmp123").
Proof.
  intros req enabled.
  assert (H : negotiation_succeeds (sample_kerberos VNull VNull)
                (sample_strategy VUndefined (VBool true)) req
                (step (sample_server VNull) "YIIZ")).
  { exists "YIIZ", VNull, (sample_server VNull).
    split; [split; reflexivity |]. repeat split; reflexivity. }
  destruct (delegation_cache_binding (sample_kerberos VNull VNull)
              (sample_app sample_user) (sample_strategy VUndefined (VBool true))
              (VObj []) req (step (sample_server VNull) "YIIZ") H)
    as [Hon _].
  destruct (Hon eq_refl) as [Ha Hs].
  split; [exact Ha | exact (Hs ∅ eq_refl)].
Defined.

(** C9. Two runs that differ only in the strategy's [verbose] setting end
    the same way, leave the same request and session, and make the same
    engine calls, verify calls and terminal actions in the same order: only
    console output differs. *)
Theorem verbose_is_observational kerberos app self v options req :
  let quiet := authenticate kerberos app self options req in
  let loud := authenticate kerberos app (with_verbose v self) options req in
  outcome_of loud = outcome_of quiet
  /\ request_of loud = request_of quiet
  /\ strip_console (trace_of loud) = strip_console (trace_of quiet)
  /\ actions (trace_of loud) = actions (trace_of quiet).
Proof.
  intros quiet loud.
  pose proof (authenticate_verbose kerberos app self v options req) as H.
  fold quiet loud in H. unfold observe in H. injection H as Ho Hr Ht.
  repeat split; try assumption.
  assert (Hs : forall t, actions (strip_console t) = actions t).
  { induction t as [|e t IH]; [reflexivity |].
    destruct e; simpl; now rewrite ?IH. }
  now rewrite <- (Hs (trace_of loud)), Ht, Hs.
Qed.

(** C10. [new Strategy()] and [new Strategy(options)] with [options] not a
    function throw the "requires a verify function" error;
    [new Strategy(verify)] with a function takes it as the verify callback
    and reads every option from an empty object. *)
Theorem constructor_requires_verify :
  new_Strategy VUndefined VUndefined
  = Threw (JsError "negotiate authentication strategy requires a verify function")
  /\ (forall options, typeof options <> "function" ->
      new_Strategy options VUndefined
      = Threw (JsError "negotiate authentication strategy requires a verify function"))
  /\ (forall ref source,
      new_Strategy (VFun ref source) VUndefined
      = Returned {| name := "negotiate";
                    _verify := VFun ref source;
                    _passReqToCallback := VUndefined;
                    _servicePrincipalName := VUndefined;
                    _verbose := VUndefined;
                    _enableConstrainedDelegation := VUndefined |}).
Proof.
  split; [reflexivity |]. split.
  - intros options H. unfold new_Strategy.
    destruct options; try reflexivity. now elim H.
  - reflexivity.
Qed.

Lemma constructor_requires_verify_witness :
  typeof (VObj [("verbose", VBool true)]) <> "function"
  /\ new_Strategy (VObj [("verbose", VBool true)]) VUndefined
     = Threw (JsError "negotiate authentication strategy requires a verify function").
Proof.
  split; [discriminate |].
  apply (proj1 (proj2 constructor_requires_verify)). discriminate.
Defined.

(** * Further properties of the strategy *)

(** ** Which way a run goes *)

Lemma header_cases req :
  header_absent req
  \/ (exists auth, req_get req "authorization" = Some auth /\ auth <> ""
                   /\ String.prefix "Negotiate " auth = false)
  \/ (exists token, req_get req "authorization" = Some ("Negotiate " +:+ token)
                    /\ startsWith token "TlR" = true)
  \/ (exists token, candidate_token req token).
Proof.
  unfold header_absent, candidate_token.
  destruct (req_get req "authorization") as [auth|]; [| now left; left].
  destruct (String.eqb_spec auth "") as [-> | Hne]; [now left; right |].
  right. destruct (String.prefix "Negotiate " auth) eqn:Hp.
  - destruct (prefix_split _ _ Hp) as [token ->]. right.
    destruct (startsWith token "TlR") eqn:Ht; [left | right]; now exists token.
  - left. now exists auth.
Qed.

(** Every attempt is rejected on its header, fails in the engine, finds no
    server, or has negotiated. *)
Lemma negotiation_cases kerberos self req :
  header_absent req
  \/ (exists auth, req_get req "authorization" = Some auth /\ auth <> ""
                   /\ String.prefix "Negotiate " auth = false)
  \/ (exists token, req_get req "authorization" = Some ("Negotiate " +:+ token)
                    /\ startsWith token "TlR" = true)
  \/ (exists stage cause, negotiation_fails kerberos self req stage cause)
  \/ server_missing kerberos self req
  \/ (exists r, negotiation_succeeds kerberos self req r).
Proof.
  destruct (header_cases req) as [H | [H | [H | [token Hc]]]]; auto.
  do 3 right.
  destruct (initializeServer kerberos
              (logical_or (_servicePrincipalName self) (VStr "HTTP")))
    as [ierr server] eqn:Hi.
  destruct (truthy ierr) eqn:Hie.
  - left. exists "init", ierr, token. rewrite Hi. simpl. auto.
  - destruct server as [server|].
    + destruct (truthy (step_err (step server token))) eqn:Hse.
      * left. exists "step", (step_err (step server token)), token.
        rewrite Hi. simpl. split; [assumption |]. split; [assumption |].
        right. eauto.
      * do 2 right. exists (step server token), token, ierr, server. auto.
    + right. left. exists token, ierr. auto.
Qed.

Lemma authenticate_server_missing kerberos app self options req :
  server_missing kerberos self req ->
  let spn := logical_or (_servicePrincipalName self) (VStr "HTTP") in
  authenticate kerberos app self options req
  = (Threw TypeError, req,
     (verbose_line self (ConsoleLog ("InitServer " +:+ to_string spn))
      ++ [InitializeServer spn])%list).
Proof.
  intros (token & ierr & Hc & Hi & Hie) spn.
  rewrite (authenticate_candidate _ _ _ _ _ _ Hc). fold spn. fold spn in Hi.
  rewrite Hi. simpl fst. simpl snd.
  rewrite (on_init_no_server _ _ _ _ _ _ Hie).
  unfold after, outcome_of, request_of, trace_of. simpl.
  now rewrite app_nil_r.
Qed.

(** A failed negotiation, with the whole trace. *)
Lemma authenticate_failed_trace kerberos app self options req stage cause :
  negotiation_fails kerberos self req stage cause ->
  let spn := logical_or (_servicePrincipalName self) (VStr "HTTP") in
  exists token,
    candidate_token req token
    /\ authenticate kerberos app self options req
       = (Returned tt, req,
          (verbose_line self (ConsoleLog ("InitServer " +:+ to_string spn))
           ++ InitializeServer spn
              :: (if String.eqb stage "init" then [] else [Step token])
           ++ [ConsoleError (failure_line stage cause); Act (Error cause)])%list).
Proof.
  intros (token & Hc & Ht & H) spn. exists token. split; [assumption |].
  rewrite (authenticate_candidate _ _ _ _ _ _ Hc). fold spn. fold spn in H.
  destruct (initializeServer kerberos spn) as [ierr server]. simpl in H.
  destruct H as [[-> ->] | (-> & Hi & srv & -> & Hs)].
  - simpl fst. simpl snd. rewrite (on_init_error _ _ _ _ _ _ _ Ht).
    unfold after, outcome_of, request_of, trace_of. simpl.
    now rewrite <- app_assoc.
  - simpl fst. simpl snd. rewrite (on_init_ok _ _ _ _ _ _ _ Hi).
    rewrite on_step_error by now rewrite Hs.
    rewrite Hs, after_after. unfold after, outcome_of, request_of, trace_of.
    simpl. now rewrite <- !app_assoc.
Qed.

(** ** What the routing writes *)

Lemma filter_nil_of_forallb {A} (P Q : A -> bool) (l : list A) :
  forallb P l = true ->
  (forall x, P x = true -> Q x = false) ->
  List.filter Q l = [].
Proof.
  intros Hl HPQ. induction l as [|x l IH]; [reflexivity |].
  simpl in Hl. apply andb_true_iff in Hl as [Hx Hl].
  simpl. now rewrite (HPQ x Hx), IH.
Qed.

Lemma trace_bind {A B} (m : M A) (k : A -> M B) req :
  trace_of ((m ≫= k) req)
  = match outcome_of (m req) with
    | Returned a => (trace_of (m req) ++ trace_of (k a (request_of (m req))))%list
    | Threw _ => trace_of (m req)
    end.
Proof.
  unfold mbind, M_bind, bind. destruct (m req) as [[[a|e] r] t]; [| reflexivity].
  unfold trace_of, outcome_of, request_of. simpl.
  now destruct (k a r) as [[o r'] t'].
Qed.

Lemma verified_events self options principal call req :
  forallb (routing_event self)
    (trace_of (verified self options principal call req)) = true.
Proof.
  destruct call as [[err user] info]. unfold verified.
  destruct (truthy err); [reflexivity |].
  destruct (truthy user); [reflexivity |]. cbv [negb].
  destruct (get_prop options "noUserRedirect") as [target|]; [| reflexivity].
  destruct (truthy target); [| reflexivity].
  unfold console_log.
  rewrite (run_bind_returned _ _ req tt req _ (run_when_emit _ _ req)).
  unfold after, trace_of. simpl.
  destruct (truthy (_verbose self)) eqn:Hv; simpl; now rewrite ?Hv.
Qed.

Lemma for_each_verified_events self options principal calls req :
  forallb (routing_event self)
    (trace_of (for_each calls (verified self options principal) req)) = true.
Proof.
  revert req. induction calls as [|c calls IH]; intros req; [reflexivity |].
  simpl. rewrite trace_bind.
  destruct (outcome_of (verified self options principal c req)).
  - rewrite forallb_app, verified_events. apply IH.
  - apply verified_events.
Qed.

(** The trace of the hand-over: the verify call, then routing events. *)
Lemma verify_stage_trace app self options principal req :
  exists t,
    forallb (routing_event self) t = true
    /\ trace_of (verify_stage app self options principal req)
       = (match _verify self with
          | VFun _ _ => [Verify (verify_args self req principal)]
          | _ => []
          end ++ t)%list.
Proof.
  unfold verify_stage.
  rewrite (run_bind_returned _ _ req req req []) by reflexivity.
  rewrite after_nil. unfold call_verify.
  destruct (_verify self) as [| | | | | |ref source| |];
    try (exists []; split; reflexivity).
  rewrite (run_bind_returned _ _ req _ req [Verify (verify_args self req principal)])
    by reflexivity.
  eexists. split; [apply for_each_verified_events | reflexivity].
Qed.

Lemma routing_no_engine_call self e :
  routing_event self e = true -> is_engine_call e = false.
Proof. now destruct e. Qed.

Lemma routing_no_verify_call self e :
  routing_event self e = true -> is_verify_call e = false.
Proof. now destruct e. Qed.

Lemma routing_quiet self e :
  truthy (_verbose self) = false ->
  routing_event self e = true -> is_console e = false.
Proof. intros Hv. destruct e; simpl; congruence. Qed.

Lemma verify_stage_engine_calls app self options principal req :
  engine_calls (trace_of (verify_stage app self options principal req)) = [].
Proof.
  destruct (verify_stage_trace app self options principal req) as (t & Ht & ->).
  rewrite engine_calls_app. unfold engine_calls at 2.
  rewrite (filter_nil_of_forallb _ _ _ Ht (routing_no_engine_call self)).
  now destruct (_verify self).
Qed.

Lemma verify_stage_not_callable app self options principal req :
  typeof (_verify self) <> "function" ->
  verify_stage app self options principal req = (Threw TypeError, req, []).
Proof.
  intros H. unfold verify_stage.
  rewrite (run_bind_returned _ _ req req req []) by reflexivity.
  rewrite after_nil. unfold call_verify.
  destruct (_verify self); try reflexivity. now elim H.
Qed.

(** ** The engine *)

(** X1. On a candidate token the engine is driven once and in order:
    [initializeServer] with the configured service principal name (["HTTP"]
    when none is set), then, only if that reports no error and hands over a
    server, one [step] with exactly the text that follows ["Negotiate "];
    nothing is retried. *)
Theorem engine_driven_once_in_order kerberos app self options req token :
  candidate_token req token ->
  let spn := logical_or (_servicePrincipalName self) (VStr "HTTP") in
  engine_calls (trace_of (authenticate kerberos app self options req))
  = InitializeServer spn
    :: match initializeServer kerberos spn with
       | (ierr, Some _) => if truthy ierr then [] else [Step token]
       | (_, None) => []
       end.
Proof.
  intros Hc spn. rewrite (authenticate_candidate _ _ _ _ _ _ Hc). fold spn.
  unfold after, trace_of at 1. cbn [snd fst].
  rewrite engine_calls_app.
  replace (engine_calls (verbose_line self _ ++ [InitializeServer spn]))
    with [InitializeServer spn]
    by (unfold verbose_line; now destruct (truthy (_verbose self))).
  simpl. f_equal.
  destruct (initializeServer kerberos spn) as [ierr server]. cbn [fst snd].
  destruct (truthy ierr) eqn:Hi.
  - rewrite (on_init_error _ _ _ _ _ _ _ Hi). now destruct server.
  - destruct server as [server|].
    + rewrite (on_init_ok _ _ _ _ _ _ _ Hi).
      unfold after, trace_of at 1. cbn [snd fst]. simpl. f_equal.
      destruct (truthy (step_err (step server token))) eqn:Hs.
      * now rewrite (on_step_error _ _ _ _ _ Hs).
      * rewrite (on_step_ok _ _ _ _ _ Hs). apply verify_stage_engine_calls.
    + now rewrite (on_init_no_server _ _ _ _ _ _ Hi).
Qed.

Lemma engine_driven_once_in_order_witness :
  engine_calls
    (trace_of (authenticate (sample_kerberos VNull VNull) (sample_app sample_user)
                 (sample_strategy (VBool true) VUndefined) (VObj [])
                 (sample_request (Some "Negotiate YIIZ") None)))
  = [InitializeServer (VStr "HTTP"); Step "YIIZ"].
Proof.
  apply (engine_driven_once_in_order (sample_kerberos VNull VNull)
           (sample_app sample_user) (sample_strategy (VBool true) VUndefined)
           (VObj []) (sample_request (Some "Negotiate YIIZ") None) "YIIZ").
  split; reflexivity.
Defined.

(** X2. When [initializeServer] reports no error but hands over no server
    object, the callback throws on [server.step]: no terminal action is
    taken, nothing is written and no step is attempted. *)
Theorem missing_server_throws kerberos app self options req :
  server_missing kerberos self req ->
  let run := authenticate kerberos app self options req in
  outcome_of run = Threw TypeError
  /\ actions (trace_of run) = []
  /\ step_calls (trace_of run) = []
  /\ request_of run = req.
Proof.
  intros H run. subst run. rewrite (authenticate_server_missing _ _ _ _ _ H).
  unfold verbose_line, outcome_of, request_of, trace_of. simpl.
  now destruct (truthy (_verbose self)).
Qed.

Lemma missing_server_throws_witness :
  let kerberos := {| initializeServer := fun _ => (VNull, None) |} in
  let run := authenticate kerberos (sample_app sample_user)
               (sample_strategy VUndefined VUndefined) (VObj [])
               (sample_request (Some "Negotiate YIIZ") None) in
  outcome_of run = Threw TypeError
  /\ actions (trace_of run) = []
  /\ step_calls (trace_of run) = []
  /\ request_of run = sample_request (Some "Negotiate YIIZ") None.
Proof.
  intros kerberos run.
  apply (missing_server_throws kerberos (sample_app sample_user)
           (sample_strategy VUndefined VUndefined) (VObj [])
           (sample_request (Some "Negotiate YIIZ") None)).
  exists "YIIZ", VNull. split; [split; reflexivity |]. split; reflexivity.
Defined.

(** ** Nothing happens without a negotiated principal *)

Lemma unnegotiated_run kerberos app self options req :
  ~ (exists r, negotiation_succeeds kerberos self req r) ->
  let run := authenticate kerberos app self options req in
  request_of run = req
  /\ verify_calls (trace_of run) = []
  /\ forallb is_rejection (actions (trace_of run)) = true.
Proof.
  intros Hn run. subst run.
  destruct (negotiation_cases kerberos self req)
    as [H | [(auth & Hh & Hne & Hp) | [(token & Hh & Ht)
        | [(stage & cause & H) | [H | H]]]]].
  - rewrite (authenticate_absent _ _ _ _ _ H).
    unfold verbose_line. now destruct (truthy (_verbose self)).
  - assert (Ht : truthy (VStr auth) = true).
    { simpl. apply negb_true_iff, String.eqb_neq, Hne. }
    rewrite (authenticate_malformed _ _ _ _ _ _ Hh Ht Hp).
    unfold verbose_line. now destruct (truthy (_verbose self)).
  - rewrite (authenticate_ntlm _ _ _ _ _ _ Hh Ht).
    unfold verbose_line. now destruct (truthy (_verbose self)).
  - destruct (authenticate_failed_trace kerberos app self options req stage cause H)
      as (token & _ & ->).
    unfold verbose_line.
    now destruct (truthy (_verbose self)), (String.eqb stage "init").
  - rewrite (authenticate_server_missing _ _ _ _ _ H).
    unfold verbose_line. now destruct (truthy (_verbose self)).
  - contradiction.
Qed.

(** X3. Unless both engine steps succeeded, the attempt writes nothing to
    the request or its session, never calls the verify function, and its
    terminal actions are only the [Negotiate] challenge or an [error]. *)
Theorem nothing_without_negotiation kerberos app self options req :
  ~ (exists r, negotiation_succeeds kerberos self req r) ->
  let run := authenticate kerberos app self options req in
  request_of run = req
  /\ verify_calls (trace_of run) = []
  /\ forall a, In a (actions (trace_of run)) ->
       a = Challenge \/ exists e, a = Error e.
Proof.
  intros Hn run.
  destruct (unnegotiated_run kerberos app self options req Hn) as (Hr & Hv & Ha).
  fold run in Hr, Hv, Ha. split; [assumption |]. split; [assumption |].
  intros a Hin. rewrite forallb_forall in Ha. specialize (Ha a Hin).
  destruct a as [c | e | u | u i]; try discriminate; [| right; now exists e].
  left. destruct c; try discriminate.
  simpl in Ha. apply String.eqb_eq in Ha. now rewrite Ha.
Qed.

Lemma nothing_without_negotiation_witness :
  let req := sample_request (Some "Basic dXNlcjpwYXNz") (Some ∅) in
  let run := authenticate (sample_kerberos VNull VNull) (sample_app sample_user)
               (sample_strategy VUndefined (VBool true)) (VObj []) req in
  request_of run = req
  /\ verify_calls (trace_of run) = []
  /\ forall a, In a (actions (trace_of run)) ->
       a = Challenge \/ exists e, a = Error e.
Proof.
  intros req run.
  apply (nothing_without_negotiation (sample_kerberos VNull VNull)
           (sample_app sample_user) (sample_strategy VUndefined (VBool true))
           (VObj []) req).
  intros (r & token & ierr & server & [Hh _] & _).
  vm_compute in Hh. discriminate Hh.
Defined.

(** ** Success comes from the application, after negotiation *)

Lemma token_unique (p a b : string) : Some (p +:+ a) = Some (p +:+ b) -> a = b.
Proof.
  intros H.
  apply (f_equal (fun o => match o with
                           | Some s => substring_from (String.length p) s
                           | None => ""
                           end)) in H.
  now rewrite !substring_from_append in H.
Qed.

(** Whether the engine steps succeed can be read off the collaborators. *)
Lemma classic_negotiated kerberos self req :
  (exists r, negotiation_succeeds kerberos self req r)
  \/ ~ (exists r, negotiation_succeeds kerberos self req r).
Proof.
  destruct (negotiation_cases kerberos self req)
    as [H | [(auth & Hh & Hne & Hp) | [(token & Hh & Ht)
        | [(stage & cause & H) | [H | H]]]]]; [| | | | | now left]; right;
    intros (r & tok & ierr & server & [Hh' Ht'] & Hi & Hie & Hs & Hse).
  - destruct H as [H | H]; rewrite H in Hh'; [discriminate |].
    injection Hh' as Hh'. discriminate Hh'.
  - rewrite Hh in Hh'. injection Hh' as ->. now rewrite prefix_append in Hp.
  - rewrite Hh in Hh'. apply token_unique in Hh'. subst tok. congruence.
  - destruct H as (token & [Hh Ht] & Hc & H).
    rewrite Hh in Hh'. apply token_unique in Hh'. subst tok.
    rewrite Hi in H. simpl in H.
    destruct H as [[_ ->] | (_ & _ & srv & Hsrv & Hcause)]; [congruence |].
    injection Hsrv as <-. congruence.
  - destruct H as (token & ierr' & [Hh Ht] & Hi' & _). congruence.
Qed.

Lemma verified_success_inv self options principal call req user info :
  In (Success user info)
     (actions (trace_of (verified self options principal call req))) ->
  exists err, call = (err, user, info)
              /\ truthy err = false /\ truthy user = true.
Proof.
  destruct call as [[err u] i]. unfold verified.
  destruct (truthy err) eqn:He.
  { simpl. intros [H | []]. discriminate H. }
  destruct (truthy u) eqn:Hu.
  { simpl. intros [H | []]. injection H as -> ->. now exists err. }
  cbv [negb].
  destruct (get_prop options "noUserRedirect") as [target|]; [| intros []].
  destruct (truthy target).
  - unfold console_log.
    rewrite (run_bind_returned _ _ req tt req _ (run_when_emit _ _ req)).
    unfold after, trace_of. simpl.
    destruct (truthy (_verbose self)); simpl; intros [H | []]; discriminate H.
  - simpl. intros [H | []]. discriminate H.
Qed.

Lemma for_each_verified_action_inv self options principal calls req a :
  In a (actions (trace_of (for_each calls (verified self options principal) req))) ->
  exists call, In call calls
    /\ In a (actions (trace_of (verified self options principal call req))).
Proof.
  induction calls as [|c calls IH]; [intros [] |].
  simpl for_each. rewrite trace_bind.
  pose proof (verified_request self options principal c req) as Hr.
  destruct (outcome_of (verified self options principal c req)).
  - rewrite actions_app, Hr. intros H. apply in_app_or in H as [H | H].
    + exists c. split; [now left | assumption].
    + destruct (IH H) as (call & Hin & Ha). exists call. split; [now right | assumption].
  - intros H. exists c. split; [now left | assumption].
Qed.

(** X4. A [success] is only ever taken for a user that the verify function
    itself reported, without an error, after both engine steps succeeded and
    the principal was recorded on the request: no header, engine or option
    value makes the strategy accept a request on its own. *)
Theorem success_requires_negotiation kerberos app self options req user info :
  let run := authenticate kerberos app self options req in
  In (Success user info) (actions (trace_of run)) ->
  exists r ref source err,
    negotiation_succeeds kerberos self req r
    /\ attrs (request_of run) !! "authenticatedPrincipal" = Some (username r)
    /\ _verify self = VFun ref source
    /\ In (err, user, info)
          (app ref (verify_args self (request_of run) (username r)))
    /\ truthy err = false
    /\ truthy user = true.
Proof.
  intros run Hin.
  destruct (classic_negotiated kerberos self req) as [[r H] | Hn].
  2: { destruct (unnegotiated_run kerberos app self options req Hn) as (_ & _ & Ha).
       fold run in Ha. rewrite forallb_forall in Ha. now specialize (Ha _ Hin). }
  exists r. subst run.
  assert (Hp : attrs (request_of (authenticate kerberos app self options req))
               !! "authenticatedPrincipal" = Some (username r)).
  { rewrite (negotiated_request _ _ _ _ _ _ H). unfold bound_request. simpl.
    destruct (truthy (_enableConstrainedDelegation self)).
    - rewrite lookup_insert_ne by discriminate. apply lookup_insert_eq.
    - apply lookup_insert_eq. }
  rewrite (negotiated_request _ _ _ _ _ _ H) in *.
  destruct (authenticate_negotiated kerberos app self options req r H)
    as [token Hrun].
  rewrite Hrun in Hin. unfold after, trace_of at 1 in Hin. cbn [snd] in Hin.
  rewrite actions_app, actions_negotiation_prefix in Hin. simpl in Hin.
  unfold verify_stage in Hin.
  rewrite (run_bind_returned _ _ _ _ _ [] (eq_refl : get_req _ = _)) in Hin.
  rewrite after_nil in Hin. unfold call_verify in Hin.
  destruct (_verify self) as [| | | | | |ref source| |] eqn:Hv;
    try (simpl in Hin; contradiction).
  rewrite (run_bind_returned _ _ _ _ _
             [Verify (verify_args self (bound_request self r req) (username r))]
             eq_refl) in Hin.
  unfold after, trace_of at 1 in Hin. cbn [snd] in Hin. simpl in Hin.
  destruct (for_each_verified_action_inv _ _ _ _ _ _ Hin) as (call & Hc & Ha).
  destruct (verified_success_inv _ _ _ _ _ _ _ Ha) as (err & -> & He & Hu).
  exists ref, source, err.
  split; [assumption |]. split; [assumption |]. split; [reflexivity |].
  split; [assumption |]. split; assumption.
Qed.

Lemma success_requires_negotiation_witness :
  let run := authenticate (sample_kerberos VNull VNull) (sample_app sample_user)
               (sample_strategy VUndefined VUndefined) (VObj [])
               (sample_request (Some "Negotiate YIIZ") None) in
  exists r ref source err,
    negotiation_succeeds (sample_kerberos VNull VNull)
      (sample_strategy VUndefined VUndefined)
      (sample_request (Some "Negotiate YIIZ") None) r
    /\ attrs (request_of run) !! "authenticatedPrincipal" = Some (username r)
    /\ _verify (sample_strategy VUndefined VUndefined) = VFun ref source
    /\ In (err, VObj [("id", VNum 1)], VObj [("role", VStr "x")])
          (sample_app sample_user ref
             (verify_args (sample_strategy VUndefined VUndefined)
                (request_of run) (username r)))
    /\ truthy err = false
    /\ truthy (VObj [("id", VNum 1)]) = true.
Proof.
  intros run.
  apply (success_requires_negotiation (sample_kerberos VNull VNull)
           (sample_app sample_user) (sample_strategy VUndefined VUndefined)
           (VObj []) (sample_request (Some "Negotiate YIIZ") None)
           (VObj [("id", VNum 1)]) (VObj [("role", VStr "x")])).
  vm_compute. left. reflexivity.
Defined.

(** ** What a run may touch *)

Lemma request_cases kerberos app self options req :
  request_of (authenticate kerberos app self options req) = req
  \/ exists r, request_of (authenticate kerberos app self options req)
               = bound_request self r req.
Proof.
  destruct (classic_negotiated kerberos self req) as [[r H] | Hn].
  - right. exists r. now apply negotiated_request.
  - left. now apply unnegotiated_run.
Qed.

(** X5. Whatever the header, the engine and the application do, a run
    leaves the request's headers alone, creates or removes no session, and
    changes no attribute of the request or of its session other than
    [authenticatedPrincipal] and [delegatedCredentialsCache]. *)
Theorem authenticate_frame kerberos app self options req :
  let run := authenticate kerberos app self options req in
  headers (request_of run) = headers req
  /\ (session (request_of run) = None <-> session req = None)
  /\ (forall k, k <> "authenticatedPrincipal" -> k <> "delegatedCredentialsCache" ->
      attrs (request_of run) !! k = attrs req !! k
      /\ forall s s', session req = Some s -> session (request_of run) = Some s' ->
           s' !! k = s !! k).
Proof.
  intros run. subst run.
  destruct (request_cases kerberos app self options req) as [-> | [r ->]].
  - split; [reflexivity |]. split; [reflexivity |].
    intros k _ _. split; [reflexivity |]. congruence.
  - unfold bound_request. simpl. split; [reflexivity |]. split.
    + now destruct (session req).
    + intros k Hp Hd. split.
      * destruct (truthy (_enableConstrainedDelegation self));
          now rewrite ?lookup_insert_ne by congruence.
      * intros s s' -> Hs'. simpl in Hs'. injection Hs' as <-.
        destruct (truthy (_enableConstrainedDelegation self));
          now rewrite ?lookup_insert_ne by congruence.
Qed.

Lemma authenticate_frame_witness :
  let req := {| headers := {["authorization" := "Negotiate YIIZ"]};
                session := Some {["cart" := VNum 3]};
                attrs := {["user" := VNull]} |} in
  let run := authenticate (sample_kerberos VNull VNull) (sample_app sample_user)
               (sample_strategy VUndefined (VBool true)) (VObj []) req in
  attrs (request_of run) !! "user" = Some VNull.
Proof.
  intros req run.
  destruct (authenticate_frame (sample_kerberos VNull VNull)
              (sample_app sample_user) (sample_strategy VUndefined (VBool true))
              (VObj []) req) as (_ & _ & H).
  destruct (H "user") as [Ha _]; [discriminate | discriminate |].
  exact Ha.
Defined.

(** ** The application's verdict *)

(** X6. After a successful negotiation, an error reported by the verify
    function is passed to [error] unchanged and is the only terminal
    action, whatever user and info came with it; the principal stays
    recorded on the request. *)
Theorem verify_error_passes_through kerberos app self options req r err user info :
  let run := authenticate kerberos app self options req in
  negotiation_succeeds kerberos self req r ->
  verify_completes app self (verify_args self (request_of run) (username r))
    (err, user, info) ->
  truthy err = true ->
  actions (trace_of run) = [Error err]
  /\ attrs (request_of run) !! "authenticatedPrincipal" = Some (username r).
Proof.
  intros run H Hv He. subst run. split.
  - rewrite (negotiated_actions _ _ _ _ _ _ _ H Hv).
    now rewrite (verified_error _ _ _ _ _ _ _ He).
  - rewrite (negotiated_request _ _ _ _ _ _ H). unfold bound_request. simpl.
    destruct (truthy (_enableConstrainedDelegation self)).
    + rewrite lookup_insert_ne by discriminate. apply lookup_insert_eq.
    + apply lookup_insert_eq.
Qed.

Lemma verify_error_passes_through_witness :
  let failing : DoneCall := (VErr "Error" "directory down", VObj [], VUndefined) in
  let run := authenticate (sample_kerberos VNull VNull) (sample_app failing)
               (sample_strategy VUndefined VUndefined) (VObj [])
               (sample_request (Some "Negotiate YIIZ") None) in
  actions (trace_of run) = [Error (VErr "Error" "directory down")]
  /\ attrs (request_of run) !! "authenticatedPrincipal"
     = Some (VStr "alice@EXAMPLE.ORG").
Proof.
  intros failing run.
  apply (verify_error_passes_through (sample_kerberos VNull VNull)
           (sample_app failing) (sample_strategy VUndefined VUndefined) (VObj [])
           (sample_request (Some "Negotiate YIIZ") None)
           (step (sample_server VNull) "YIIZ")
           (VErr "Error" "directory down") (VObj []) VUndefined).
  - exists "YIIZ", VNull, (sample_server VNull).
    split; [split; reflexivity |]. repeat split; reflexivity.
  - exists 0%nat, "function (principal, done) { ... }". split; reflexivity.
  - reflexivity.
Defined.

(** X7. After a successful negotiation a callable verify function is called
    exactly once, with the principal alone or, under [passReqToCallback],
    with the request first; the request it is given already carries the
    principal. *)
Theorem verify_called_once_after_binding kerberos app self options req r :
  let run := authenticate kerberos app self options req in
  negotiation_succeeds kerberos self req r ->
  typeof (_verify self) = "function" ->
  verify_calls (trace_of run)
  = [Verify (if truthy (_passReqToCallback self)
             then WithReq (request_of run) (username r)
             else PrincipalOnly (username r))]
  /\ attrs (request_of run) !! "authenticatedPrincipal" = Some (username r).
Proof.
  intros run H Hf. subst run. rewrite (negotiated_request _ _ _ _ _ _ H).
  split.
  - destruct (authenticate_negotiated kerberos app self options req r H)
      as [token ->].
    unfold after, trace_of at 1. cbn [snd].
    destruct (verify_stage_trace app self options (username r)
                (bound_request self r req)) as (t & Ht & ->).
    unfold verify_calls. rewrite !List.filter_app.
    rewrite (filter_nil_of_forallb _ _ _ Ht (routing_no_verify_call self)).
    replace (List.filter is_verify_call (negotiation_prefix self token)) with
      (@nil Event)
      by (unfold negotiation_prefix, verbose_line;
          now destruct (truthy (_verbose self))).
    destruct (_verify self); try discriminate. reflexivity.
  - unfold bound_request. simpl.
    destruct (truthy (_enableConstrainedDelegation self)).
    + rewrite lookup_insert_ne by discriminate. apply lookup_insert_eq.
    + apply lookup_insert_eq.
Qed.

Lemma verify_called_once_after_binding_witness :
  let self := {| name := "negotiate";
                 _verify := VFun 0 "function (req, principal, done) { ... }";
                 _passReqToCallback := VBool true;
                 _servicePrincipalName := VStr "HTTP@www.example.org";
                 _verbose := VUndefined;
                 _enableConstrainedDelegation := VUndefined |} in
  let run := authenticate (sample_kerberos VNull VNull) (sample_app sample_user)
               self (VObj []) (sample_request (Some "Negotiate YIIZ") None) in
  verify_calls (trace_of run)
  = [Verify (WithReq (request_of run) (VStr "alice@EXAMPLE.ORG"))]
  /\ attrs (request_of run) !! "authenticatedPrincipal"
     = Some (VStr "alice@EXAMPLE.ORG").
Proof.
  intros self run.
  apply (verify_called_once_after_binding (sample_kerberos VNull VNull)
           (sample_app sample_user) self (VObj [])
           (sample_request (Some "Negotiate YIIZ") None)
           (step (sample_server VNull) "YIIZ")).
  - exists "YIIZ", VNull, (sample_server VNull).
    split; [split; reflexivity |]. repeat split; reflexivity.
  - reflexivity.
Defined.

(** ** The constructor, again *)

(** X8. A strategy that the constructor returns is named [negotiate] and has
    a truthy verify value.  When the first argument is a function it is the
    verify function, the second argument is ignored and every option is
    [undefined]; otherwise the second argument is the verify value and the
    four options are the properties of the first. *)
Theorem constructed_strategy options verify self :
  new_Strategy options verify = Returned self ->
  name self = "negotiate"
  /\ truthy (_verify self) = true
  /\ if String.eqb (typeof options) "function"
     then _verify self = options
          /\ _passReqToCallback self = VUndefined
          /\ _servicePrincipalName self = VUndefined
          /\ _verbose self = VUndefined
          /\ _enableConstrainedDelegation self = VUndefined
     else _verify self = verify
          /\ get_prop options "passReqToCallback"
             = Some (_passReqToCallback self)
          /\ get_prop options "servicePrincipalName"
             = Some (_servicePrincipalName self)
          /\ get_prop options "verbose" = Some (_verbose self)
          /\ get_prop options "enableConstrainedDelegation"
             = Some (_enableConstrainedDelegation self).
Proof.
  unfold new_Strategy.
  destruct (String.eqb (typeof options) "function") eqn:Hf.
  - destruct options; try discriminate Hf.
    simpl. intros H. injection H as <-. simpl. repeat split; reflexivity.
  - destruct (truthy verify) eqn:Hv; [| discriminate]. cbv [negb].
    destruct (get_prop options "passReqToCallback") as [p|]; [| discriminate].
    destruct (get_prop options "servicePrincipalName") as [s|]; [| discriminate].
    destruct (get_prop options "verbose") as [v|]; [| discriminate].
    destruct (get_prop options "enableConstrainedDelegation") as [d|];
      [| discriminate].
    intros H. injection H as <-. simpl. repeat split; assumption || reflexivity.
Qed.

Lemma constructed_strategy_witness :
  let options := VObj [("servicePrincipalName", VStr "HTTP@www.example.org");
                       ("enableConstrainedDelegation", VBool true)] in
  let verify := VFun 7 "function (principal, done) { ... }" in
  let self := {| name := "negotiate";
                 _verify := verify;
                 _passReqToCallback := VUndefined;
                 _servicePrincipalName := VStr "HTTP@www.example.org";
                 _verbose := VUndefined;
                 _enableConstrainedDelegation := VBool true |} in
  name self = "negotiate"
  /\ truthy (_verify self) = true
  /\ _verify self = verify
  /\ get_prop options "passReqToCallback" = Some (_passReqToCallback self)
  /\ get_prop options "servicePrincipalName" = Some (_servicePrincipalName self)
  /\ get_prop options "verbose" = Some (_verbose self)
  /\ get_prop options "enableConstrainedDelegation"
     = Some (_enableConstrainedDelegation self).
Proof.
  intros options verify self.
  apply (constructed_strategy options verify self). reflexivity.
Defined.

(** X9. With a verify value but [undefined] or [null] in place of the
    options object, the constructor does not fall back to defaults: it
    throws a TypeError on reading the first option. *)
Theorem constructor_needs_options_object options verify :
  truthy verify = true ->
  options = VUndefined \/ options = VNull ->
  new_Strategy options verify = Threw TypeError.
Proof.
  intros Hv [-> | ->]; unfold new_Strategy; simpl; now rewrite Hv.
Qed.

Lemma constructor_needs_options_object_witness :
  new_Strategy VUndefined (VFun 7 "function (principal, done) { ... }")
  = Threw TypeError.
Proof.
  apply (constructor_needs_options_object VUndefined
           (VFun 7 "function (principal, done) { ... }"));
    [reflexivity | now left].
Defined.

(** X10. The constructor accepts any truthy verify value.  When it is not a
    function, the failure only shows once a negotiation has succeeded: the
    attempt throws on calling it, after the principal has been recorded and
    without any terminal action. *)
Theorem uncallable_verify_throws_late kerberos app options verify self
    call_options req r :
  new_Strategy options verify = Returned self ->
  typeof options <> "function" ->
  typeof verify <> "function" ->
  negotiation_succeeds kerberos self req r ->
  let run := authenticate kerberos app self call_options req in
  outcome_of run = Threw TypeError
  /\ actions (trace_of run) = []
  /\ verify_calls (trace_of run) = []
  /\ attrs (request_of run) !! "authenticatedPrincipal" = Some (username r).
Proof.
  intros Hnew Ho Hv H run. subst run.
  destruct (constructed_strategy _ _ _ Hnew) as (_ & _ & Hs).
  destruct (String.eqb_spec (typeof options) "function") as [|_]; [contradiction |].
  destruct Hs as (Hs & _).
  assert (Hnf : typeof (_verify self) <> "function") by now rewrite Hs.
  destruct (authenticate_negotiated kerberos app self call_options req r H)
    as [token ->].
  rewrite (verify_stage_not_callable _ _ _ _ _ Hnf).
  unfold after, outcome_of, request_of, trace_of. simpl.
  rewrite app_nil_r, actions_negotiation_prefix.
  repeat split.
  - unfold negotiation_prefix, verbose_line.
    now destruct (truthy (_verbose self)).
  - destruct (truthy (_enableConstrainedDelegation self)).
    + rewrite lookup_insert_ne by discriminate. apply lookup_insert_eq.
    + apply lookup_insert_eq.
Qed.

Lemma uncallable_verify_throws_late_witness :
  let self := {| name := "negotiate";
                 _verify := VStr "lookupUser";
                 _passReqToCallback := VUndefined;
                 _servicePrincipalName := VUndefined;
                 _verbose := VUndefined;
                 _enableConstrainedDelegation := VUndefined |} in
  let run := authenticate (sample_kerberos VNull VNull) (sample_app sample_user)
               self (VObj []) (sample_request (Some "Negotiate YIIZ") None) in
  outcome_of run = Threw TypeError
  /\ actions (trace_of run) = []
  /\ verify_calls (trace_of run) = []
  /\ attrs (request_of run) !! "authenticatedPrincipal"
     = Some (VStr "alice@EXAMPLE.ORG").
Proof.
  intros self run.
  apply (uncallable_verify_throws_late (sample_kerberos VNull VNull)
           (sample_app sample_user) (VObj []) (VStr "lookupUser") self (VObj [])
           (sample_request (Some "Negotiate YIIZ") None)
           (step (sample_server VNull) "YIIZ")).
  - reflexivity.
  - discriminate.
  - discriminate.
  - exists "YIIZ", VNull, (sample_server VNull).
    split; [split; reflexivity |]. repeat split; reflexivity.
Defined.

(** ** How many terminal actions *)

Lemma verified_one_action self options principal target call req :
  get_prop options "noUserRedirect" = Some target ->
  length (actions (trace_of (verified self options principal call req))) = 1%nat.
Proof.
  intros Ho. destruct call as [[err user] info]. unfold verified. rewrite Ho.
  destruct (truthy err); [reflexivity |].
  destruct (truthy user); [reflexivity |]. cbv [negb].
  destruct (truthy target); [| reflexivity].
  unfold console_log.
  rewrite (run_bind_returned _ _ req tt req _ (run_when_emit _ _ req)).
  unfold after, trace_of. simpl. now destruct (truthy (_verbose self)).
Qed.

Lemma verified_at_most_one_action self options principal call req :
  (length (actions (trace_of (verified self options principal call req))) <= 1)%nat.
Proof.
  destruct (get_prop options "noUserRedirect") as [target|] eqn:Ho.
  - now rewrite (verified_one_action _ _ _ target).
  - destruct call as [[err user] info]. unfold verified. rewrite Ho.
    destruct (truthy err); [simpl; lia |].
    destruct (truthy user); simpl; lia.
Qed.

Lemma for_each_actions_length self options principal target calls req :
  get_prop options "noUserRedirect" = Some target ->
  length (actions (trace_of (for_each calls (verified self options principal) req)))
  = length calls.
Proof.
  intros Ho. revert req. induction calls as [|c calls IH]; intros req; [reflexivity |].
  simpl for_each. rewrite trace_bind.
  rewrite (verified_returns _ _ _ _ _ _ Ho).
  rewrite actions_app, length_app, (verified_one_action _ _ _ _ _ _ Ho), IH.
  reflexivity.
Qed.

Lemma for_each_actions_bound self options principal calls req :
  (length (actions (trace_of (for_each calls (verified self options principal) req)))
   <= length calls)%nat.
Proof.
  revert req. induction calls as [|c calls IH]; intros req; [simpl; lia |].
  simpl for_each. rewrite trace_bind.
  pose proof (verified_at_most_one_action self options principal c req) as Hc.
  destruct (outcome_of (verified self options principal c req)).
  - rewrite actions_app, length_app.
    specialize (IH (request_of (verified self options principal c req))).
    simpl. lia.
  - simpl. lia.
Qed.

(** X11. The strategy does not guard against a verify function that
    completes more than once: after a successful negotiation, with an
    options object, the run returns and takes one terminal action for every
    completion, no more and no fewer. *)
Theorem one_action_per_completion kerberos app self options req r ref source target :
  let run := authenticate kerberos app self options req in
  negotiation_succeeds kerberos self req r ->
  _verify self = VFun ref source ->
  get_prop options "noUserRedirect" = Some target ->
  outcome_of run = Returned tt
  /\ length (actions (trace_of run))
     = length (app ref (verify_args self (request_of run) (username r))).
Proof.
  intros run H Hv Ho. subst run. rewrite (negotiated_request _ _ _ _ _ _ H).
  destruct (authenticate_negotiated kerberos app self options req r H) as [token ->].
  unfold after. split.
  - unfold outcome_of at 1. cbn [fst].
    apply (verify_stage_returns _ _ _ _ target ref source); assumption.
  - unfold trace_of at 1. cbn [snd].
    rewrite actions_app, actions_negotiation_prefix. simpl.
    unfold verify_stage.
    rewrite (run_bind_returned _ _ _ _ _ [] (eq_refl : get_req _ = _)).
    rewrite after_nil. unfold call_verify. rewrite Hv.
    rewrite (run_bind_returned _ _ _ _ _
               [Verify (verify_args self (bound_request self r req) (username r))]
               eq_refl).
    unfold after, trace_of at 1. cbn [snd]. simpl.
    apply (for_each_actions_length _ _ _ target), Ho.
Qed.

Lemma one_action_per_completion_witness :
  let twice : App := fun _ _ => [sample_user; no_user] in
  let run := authenticate (sample_kerberos VNull VNull) twice
               (sample_strategy VUndefined VUndefined) (VObj [])
               (sample_request (Some "Negotiate YIIZ") None) in
  outcome_of run = Returned tt
  /\ length (actions (trace_of run)) = 2%nat.
Proof.
  intros twice run.
  apply (one_action_per_completion (sample_kerberos VNull VNull) twice
           (sample_strategy VUndefined VUndefined) (VObj [])
           (sample_request (Some "Negotiate YIIZ") None)
           (step (sample_server VNull) "YIIZ")
           0%nat "function (principal, done) { ... }" VUndefined).
  - exists "YIIZ", VNull, (sample_server VNull).
    split; [split; reflexivity |]. repeat split; reflexivity.
  - reflexivity.
  - reflexivity.
Defined.

(** X12. When the verify function completes at most once, an attempt takes
    at most one terminal action, on every path and whether or not it
    throws. *)
Theorem at_most_one_action kerberos app self options req :
  (forall ref args, (length (app ref args) <= 1)%nat) ->
  (length (actions (trace_of (authenticate kerberos app self options req))) <= 1)%nat.
Proof.
  intros Happ.
  destruct (negotiation_cases kerberos self req)
    as [H | [(auth & Hh & Hne & Hp) | [(token & Hh & Ht)
        | [(stage & cause & H) | [H | [r H]]]]]].
  - rewrite (authenticate_absent _ _ _ _ _ H).
    unfold verbose_line. now destruct (truthy (_verbose self)).
  - assert (Ht : truthy (VStr auth) = true).
    { simpl. apply negb_true_iff, String.eqb_neq, Hne. }
    rewrite (authenticate_malformed _ _ _ _ _ _ Hh Ht Hp).
    unfold verbose_line. now destruct (truthy (_verbose self)).
  - rewrite (authenticate_ntlm _ _ _ _ _ _ Hh Ht).
    unfold verbose_line. now destruct (truthy (_verbose self)).
  - destruct (authenticate_failed_trace kerberos app self options req stage cause H)
      as (token & _ & ->).
    unfold verbose_line.
    now destruct (truthy (_verbose self)), (String.eqb stage "init").
  - rewrite (authenticate_server_missing _ _ _ _ _ H).
    unfold verbose_line. destruct (truthy (_verbose self)); simpl; lia.
  - destruct (authenticate_negotiated kerberos app self options req r H) as [token ->].
    unfold after, trace_of at 1. cbn [snd].
    rewrite actions_app, actions_negotiation_prefix. simpl.
    unfold verify_stage.
    rewrite (run_bind_returned _ _ _ _ _ [] (eq_refl : get_req _ = _)).
    rewrite after_nil. unfold call_verify.
    destruct (_verify self) as [| | | | | |ref source| |]; try (simpl; lia).
    rewrite (run_bind_returned _ _ _ _ _
               [Verify (verify_args self (bound_request self r req) (username r))]
               eq_refl).
    unfold after, trace_of at 1. cbn [snd]. simpl.
    etransitivity; [apply for_each_actions_bound | apply Happ].
Qed.

Lemma at_most_one_action_witness :
  (length (actions (trace_of
     (authenticate (sample_kerberos VNull VNull) (sample_app no_user)
        (sample_strategy (VBool true) VUndefined) VUndefined
        (sample_request (Some "Negotiate YIIZ") None)))) <= 1)%nat.
Proof.
  apply (at_most_one_action (sample_kerberos VNull VNull) (sample_app no_user)
           (sample_strategy (VBool true) VUndefined) VUndefined
           (sample_request (Some "Negotiate YIIZ") None)).
  intros ref args. simpl. lia.
Defined.

(** ** Console output without [verbose] *)

(** X13. With [verbose] off, the only thing an attempt ever writes to the
    console is the one failure line of a failed engine step; every other
    path, successful or not, is silent. *)
Theorem quiet_console kerberos app self options req :
  truthy (_verbose self) = false ->
  let run := authenticate kerberos app self options req in
  console_lines (trace_of run) = []
  \/ exists stage cause,
       negotiation_fails kerberos self req stage cause
       /\ console_lines (trace_of run) = [ConsoleError (failure_line stage cause)].
Proof.
  intros Hq run. subst run.
  destruct (negotiation_cases kerberos self req)
    as [H | [(auth & Hh & Hne & Hp) | [(token & Hh & Ht)
        | [(stage & cause & H) | [H | [r H]]]]]].
  - left. rewrite (authenticate_absent _ _ _ _ _ H).
    unfold verbose_line. now rewrite Hq.
  - left. assert (Ht : truthy (VStr auth) = true).
    { simpl. apply negb_true_iff, String.eqb_neq, Hne. }
    rewrite (authenticate_malformed _ _ _ _ _ _ Hh Ht Hp).
    unfold verbose_line. now rewrite Hq.
  - left. rewrite (authenticate_ntlm _ _ _ _ _ _ Hh Ht).
    unfold verbose_line. now rewrite Hq.
  - right. exists stage, cause. split; [assumption |].
    destruct (authenticate_failed_trace kerberos app self options req stage cause H)
      as (token & _ & ->).
    unfold verbose_line. rewrite Hq. now destruct (String.eqb stage "init").
  - left. rewrite (authenticate_server_missing _ _ _ _ _ H).
    unfold verbose_line. now rewrite Hq.
  - left. destruct (authenticate_negotiated kerberos app self options req r H)
      as [token ->].
    unfold after, trace_of at 1. cbn [snd].
    destruct (verify_stage_trace app self options (username r)
                (bound_request self r req)) as (t & Ht & ->).
    unfold console_lines. rewrite !List.filter_app.
    rewrite (filter_nil_of_forallb _ _ _ Ht (fun e => routing_quiet self e Hq)).
    unfold negotiation_prefix, verbose_line. rewrite Hq.
    now destruct (_verify self).
Qed.

Lemma quiet_console_witness :
  let run := authenticate (sample_kerberos VNull VNull) (sample_app no_user)
               (sample_strategy (VBool false) (VBool true))
               (VObj [("noUserRedirect", VStr "/needs-account")])
               (sample_request (Some "Negotiate YIIZ") (Some ∅)) in
  console_lines (trace_of run) = []
  \/ exists stage cause,
       negotiation_fails (sample_kerberos VNull VNull)
         (sample_strategy (VBool false) (VBool true))
         (sample_request (Some "Negotiate YIIZ") (Some ∅)) stage cause
       /\ console_lines (trace_of run) = [ConsoleError (failure_line stage cause)].
Proof.
  intros run.
  apply (quiet_console (sample_kerberos VNull VNull) (sample_app no_user)
           (sample_strategy (VBool false) (VBool true))
           (VObj [("noUserRedirect", VStr "/needs-account")])
           (sample_request (Some "Negotiate YIIZ") (Some ∅))).
  reflexivity.
Defined.

(** ** When the per-call options matter *)

Lemma for_each_ext {A} (l : list A) (f g : A -> M unit) :
  (forall a, In a l -> forall req, f a req = g a req) ->
  forall req, for_each l f req = for_each l g req.
Proof.
  induction l as [|a l IH]; intros H req; [reflexivity |].
  simpl. unfold mbind, M_bind, bind.
  rewrite (H a (or_introl eq_refl) req).
  destruct (g a req) as [[[[]|e] r] t]; [| reflexivity].
  rewrite IH; [reflexivity |]. intros b Hb. apply H. now right.
Qed.

Lemma verified_options_irrelevant self options options' principal err user info req :
  truthy err = true \/ truthy user = true ->
  verified self options principal (err, user, info) req
  = verified self options' principal (err, user, info) req.
Proof.
  intros H. unfold verified.
  destruct (truthy err); [reflexivity |].
  destruct H as [H | ->]; [discriminate | reflexivity].
Qed.

Lemma authenticate_negotiated_uniform kerberos self req r :
  negotiation_succeeds kerberos self req r ->
  exists token,
    forall app options,
      authenticate kerberos app self options req
      = after (negotiation_prefix self token)
          (verify_stage app self options (username r) (bound_request self r req)).
Proof.
  intros (token & ierr & server & Hc & Hi & Hie & Hs & Hse).
  exists token. intros app options.
  rewrite (authenticate_candidate _ _ _ _ _ _ Hc).
  rewrite Hi. simpl fst. simpl snd.
  rewrite (on_init_ok _ _ _ _ _ _ _ Hie), Hs, (on_step_ok _ _ _ _ _ Hse).
  rewrite after_after. unfold negotiation_prefix.
  now rewrite <- app_assoc.
Qed.

(** X14. The per-call options are consulted only when the verify function
    reports neither an error nor a user: as long as every completion
    carries one of the two, the whole run (outcome, request and trace) is
    the same for any options value, even [undefined]. *)
Theorem options_matter_only_without_user kerberos app self options options' req :
  (forall ref args err user info,
     In (err, user, info) (app ref args) ->
     truthy err = true \/ truthy user = true) ->
  authenticate kerberos app self options req
  = authenticate kerberos app self options' req.
Proof.
  intros Happ.
  destruct (negotiation_cases kerberos self req)
    as [H | [(auth & Hh & Hne & Hp) | [(token & Hh & Ht)
        | [(stage & cause & H) | [H | [r H]]]]]].
  - now rewrite !(authenticate_absent _ _ _ _ _ H).
  - assert (Ht : truthy (VStr auth) = true).
    { simpl. apply negb_true_iff, String.eqb_neq, Hne. }
    now rewrite !(authenticate_malformed _ _ _ _ _ _ Hh Ht Hp).
  - now rewrite !(authenticate_ntlm _ _ _ _ _ _ Hh Ht).
  - destruct H as (token & Hc & Ht & H).
    rewrite !(authenticate_candidate _ _ _ _ _ _ Hc).
    destruct (initializeServer kerberos _) as [ierr server]. simpl in H.
    simpl fst. simpl snd.
    destruct H as [[_ ->] | (_ & Hi & srv & -> & Hs)].
    + now rewrite !(on_init_error _ _ _ _ _ _ _ Ht).
    + rewrite !(on_init_ok _ _ _ _ _ _ _ Hi).
      rewrite !on_step_error by now rewrite Hs. reflexivity.
  - now rewrite !(authenticate_server_missing _ _ _ _ _ H).
  - destruct (authenticate_negotiated_uniform kerberos self req r H) as [token Hrun].
    rewrite !Hrun. f_equal. unfold verify_stage.
    rewrite !(run_bind_returned _ _ _ _ _ [] (eq_refl : get_req _ = _)).
    rewrite !after_nil. unfold call_verify.
    destruct (_verify self) as [| | | | | |ref source| |]; try reflexivity.
    rewrite !(run_bind_returned _ _ _ _ _
                [Verify (verify_args self (bound_request self r req) (username r))]
                eq_refl).
    f_equal. apply for_each_ext. intros [[err user] info] Hin req'.
    apply verified_options_irrelevant. eapply Happ, Hin.
Qed.

Lemma options_matter_only_without_user_witness :
  authenticate (sample_kerberos VNull VNull) (sample_app sample_user)
    (sample_strategy VUndefined VUndefined)
    (VObj [("noUserRedirect", VStr "/needs-account")])
    (sample_request (Some "Negotiate YIIZ") None)
  = authenticate (sample_kerberos VNull VNull) (sample_app sample_user)
      (sample_strategy VUndefined VUndefined) VUndefined
      (sample_request (Some "Negotiate YIIZ") None).
Proof.
  apply (options_matter_only_without_user (sample_kerberos VNull VNull)
           (sample_app sample_user) (sample_strategy VUndefined VUndefined)
           (VObj [("noUserRedirect", VStr "/needs-account")]) VUndefined
           (sample_request (Some "Negotiate YIIZ") None)).
  intros ref args err user info [H | []].
  injection H as <- <- <-. right. reflexivity.
Defined.
